(** * Hospital queue management: the queue engine of [database.py]

    A shallow embedding of [HospitalDatabase] (src/database.py) and of
    [HospitalQueueSystem.register_patient] (src/hospital_queue.py).

    The SQLite file is modelled as a record of tables, each table a list of
    rows in rowid order.  Every method of [HospitalDatabase] becomes a
    function from the committed database to an outcome (a returned value or
    a raised exception) and the database committed afterwards.  What the
    Python code reads from its environment (the wall clock, SQLite's
    [CURRENT_TIMESTAMP]) is an explicit [clock] argument. *)

From Stdlib Require Import ZArith NArith List Bool Lia String Ascii.
From Stdlib Require Import DecimalString Permutation Sorted.
Import ListNotations.
Open Scope string_scope.
Open Scope Z_scope.

(** ** Python and SQLite primitives *)

Module Py.

(** Exceptions the modelled methods can raise. *)
Inductive exn : Type :=
| IntegrityError      (* sqlite3: a UNIQUE, NOT NULL or CHECK constraint failed *)
| OperationalError    (* sqlite3: database is locked *)
| OverflowError       (* sqlite3: an int parameter outside 64 bits *)
| ValueError.         (* int() on a string that is not a number *)

Inductive outcome (A : Type) : Type :=
| Returned (a : A)
| Raised (e : exn).
Arguments Returned {A} a.
Arguments Raised {A} e.

(** Truthiness of an optional string: [None] and [''] are falsy.
    [nonempty o] is [Some s] exactly when [if o:] takes the branch. *)
Definition nonempty (o : option string) : option string :=
  match o with
  | Some s => if (s =? EmptyString)%string then None else Some s
  | None => None
  end.

(** [s.split(sep)[-1]]: the part of [s] after the last [sep]. *)
Fixpoint split_last (sep : ascii) (field : string) (s : string) : string :=
  match s with
  | EmptyString => field
  | String ch rest =>
      if Ascii.eqb ch sep then split_last sep EmptyString rest
      else split_last sep (field ++ String ch EmptyString) rest
  end.

Definition digit_of_ascii (ch : ascii) : option N :=
  let n := N_of_ascii ch in
  if ((48 <=? n) && (n <=? 57))%N then Some (n - 48)%N else None.

Fixpoint parse_digits (acc : N) (s : string) : option N :=
  match s with
  | EmptyString => Some acc
  | String ch rest =>
      match digit_of_ascii ch with
      | Some d => parse_digits (10 * acc + d)%N rest
      | None => None
      end
  end.

(** [int(s)] on a string of ASCII digits; [None] stands for ValueError.
    The strings this program passes to [int] are the last field of a
    token, which [generate_token] always writes as a digit string; signs,
    blanks and underscores, which Python would also accept, never occur
    there and are rejected here. *)
Definition int (s : string) : option N :=
  match s with
  | EmptyString => None
  | _ => parse_digits 0 s
  end.

Fixpoint zero_pad (missing : nat) (s : string) : string :=
  match missing with
  | O => s
  | S k => String "0" (zero_pad k s)
  end.

(** [f"{n:03d}"] for a natural number: decimal, zero-padded to at least
    three characters, never truncated. *)
Definition format_03d (n : N) : string :=
  let digits := NilZero.string_of_uint (N.to_uint n) in
  zero_pad (3 - String.length digits) digits.

End Py.

Module Sql.

(** ASCII case folding used by SQLite's LIKE. *)
Definition fold_case (ch : ascii) : ascii :=
  let n := N_of_ascii ch in
  if ((65 <=? n) && (n <=? 90))%N then ascii_of_N (n + 32) else ch.

(** [s LIKE pat] as SQLite evaluates it without ESCAPE: [%] matches any
    run of characters, [_] any single one, and ASCII letters match
    regardless of case. *)
Fixpoint like (pat s : string) : bool :=
  match pat with
  | EmptyString =>
      match s with EmptyString => true | String _ _ => false end
  | String "%" pat' =>
      (fix any (t : string) : bool :=
         like pat' t ||
         match t with
         | EmptyString => false
         | String _ t' => any t'
         end) s
  | String "_" pat' =>
      match s with
      | EmptyString => false
      | String _ s' => like pat' s'
      end
  | String ch pat' =>
      match s with
      | EmptyString => false
      | String d s' =>
          if Ascii.eqb ch d then like pat' s'
          else Ascii.eqb (fold_case ch) (fold_case d) && like pat' s'
      end
  end.

(** The BINARY collation: texts are compared byte by byte, and a proper
    prefix sorts first. *)
Fixpoint binary_lt (a b : string) : bool :=
  match a, b with
  | _, EmptyString => false
  | EmptyString, String _ _ => true
  | String x a', String y b' =>
      if Ascii.eqb x y then binary_lt a' b'
      else (N_of_ascii x <? N_of_ascii y)%N
  end.

(** The greatest text of a column under that collation: what
    [ORDER BY col DESC LIMIT 1] returns. *)
Fixpoint greatest (best : option string) (col : list string) : option string :=
  match col with
  | [] => best
  | t :: rest =>
      match best with
      | None => greatest (Some t) rest
      | Some b => greatest (Some (if binary_lt b t then t else b)) rest
      end
  end.

(** A Python int can be bound to a statement parameter when it fits a
    signed 64-bit integer; otherwise [execute] raises OverflowError before
    the statement runs. *)
Definition binds (n : Z) : bool :=
  (- 9223372036854775808 <=? n) && (n <=? 9223372036854775807).

(** SQL equality of a nullable text column with a text parameter: NULL
    is equal to nothing. *)
Definition text_eq (col : option string) (param : string) : bool :=
  match col with
  | Some v => (v =? param)%string
  | None => false
  end.

End Sql.

(** ** The tables *)

(** The four literals the CHECK constraint on [patients.status] admits. *)
Inductive patient_status : Type :=
| waiting | in_consultation | completed | cancelled.

Definition status_eqb (a b : patient_status) : bool :=
  match a, b with
  | waiting, waiting | in_consultation, in_consultation
  | completed, completed | cancelled, cancelled => true
  | _, _ => false
  end.

(** Timestamps: SQLite stores [CURRENT_TIMESTAMP] as the UTC text
    YYYY-MM-DD HH:MM:SS and compares it as text, which orders it
    chronologically; a timestamp is modelled as the number of seconds it
    denotes, counted from 1970-01-01 00:00:00 UTC, so two events within
    one second carry the same timestamp. *)
Definition timestamp : Type := Z.

Record patient : Type := mkPatient {
  token_number : string;
  full_name : string;
  age : option Z;
  gender : option string;
  phone_number : option string;
  emergency_contact : option string;
  medical_condition : option string;
  priority_level : Z;
  department : option string;
  doctor_assigned : option string;
  registration_time : timestamp;
  consultation_start_time : option timestamp;
  consultation_end_time : option timestamp;
  status : patient_status;
  estimated_wait_time : Z;
  notes : option string;
  is_emergency : bool;
  is_follow_up : bool
}.

Record department_row : Type := mkDepartment {
  department_name : string;
  department_code : string;
  current_wait_time : Z;
  active_doctors : Z
}.

Record doctor : Type := mkDoctor {
  doctor_name : string;
  department_id : Z;
  specialization : string;
  is_available : bool;
  current_patient_token : option string
}.

Inductive history_action : Type :=
| REGISTERED | CONSULTATION_STARTED | CONSULTATION_COMPLETED | CANCELLED.

Record history_entry : Type := mkHistory {
  h_token_number : string;
  action : history_action;
  action_time : timestamp;
  previous_status : option patient_status;
  new_status : option patient_status;
  queue_position_before : option Z;
  queue_position_after : option Z;
  performed_by : string;
  h_notes : option string
}.

(** A row of [statistics].  The columns [avg_wait_time], [max_wait_time],
    [min_wait_time] (floating point), [peak_hour] and
    [department_breakdown] (text renderings) are left out: nothing below
    reads them. *)
Record statistic : Type := mkStatistic {
  stat_date : string;
  total_patients : Z;
  emergency_cases : Z;
  regular_cases : Z;
  follow_up_cases : Z;
  doctors_available : Z
}.

Record db : Type := mkDb {
  patients : list patient;
  departments : list department_row;
  doctors : list doctor;
  queue_history : list history_entry;
  statistics : list statistic
}.

(** What a method reads from outside the database during one call. *)
Record clock : Type := mkClock {
  today_compact : string;        (* datetime.now().strftime('%Y%m%d') *)
  today_iso : string;            (* datetime.now().strftime('%Y-%m-%d') *)
  current_timestamp : timestamp  (* CURRENT_TIMESTAMP, DATE('now') *)
}.

(** [init_database] on a fresh file: the default departments and doctors. *)
Definition default_departments : list department_row :=
  [ mkDepartment "Emergency" "ER" 15 3;
    mkDepartment "General Medicine" "GM" 45 2;
    mkDepartment "Pediatrics" "PED" 30 2;
    mkDepartment "Cardiology" "CARD" 60 1;
    mkDepartment "Orthopedics" "ORTH" 40 1;
    mkDepartment "Dermatology" "DERM" 25 1 ].

Definition default_doctors : list doctor :=
  [ mkDoctor "Dr. Smith" 1 "Emergency Medicine" true None;
    mkDoctor "Dr. Johnson" 1 "Trauma Specialist" true None;
    mkDoctor "Dr. Williams" 2 "General Physician" true None;
    mkDoctor "Dr. Brown" 3 "Pediatrician" true None;
    mkDoctor "Dr. Davis" 4 "Cardiologist" true None ].

Definition init_database : db :=
  mkDb [] default_departments default_doctors [] [].

(** ** Connections and transactions

    Every method opens a connection of its own ([get_connection]) and runs
    inside [with conn:], which commits when the block ends and rolls back
    when an exception leaves it.  A method therefore maps the committed
    database to the database committed next, and a raised exception leaves
    the committed database as it was.

    Two methods call another method while their own transaction has
    uncommitted writes: [add_patient] calls [get_queue_position] after its
    INSERT, and [complete_consultation] calls [update_daily_statistics]
    after its UPDATE.  The callee's connection is a different one: it reads
    the committed database, not the caller's pending rows, and since SQLite
    admits one writer per file, a write on it fails with
    [OperationalError] (database is locked) once the busy timeout has
    passed.  The flag [write_locked] of [update_daily_statistics] says
    whether the caller holds that write lock. *)

Import Py.

Definition token_is (t : string) (p : patient) : bool :=
  (token_number p =? t)%string.

Definition is_waiting (p : patient) : bool := status_eqb (status p) waiting.

Definition count {A : Type} (f : A -> bool) (l : list A) : Z :=
  Z.of_nat (List.length (filter f l)).

(** *** generate_token *)

Definition token_prefix (c : clock) (department_code : option string) : string :=
  match nonempty department_code with
  | Some code => code ++ "-" ++ today_compact c ++ "-"
  | None => "HOSP-" ++ today_compact c ++ "-"
  end.

(** SELECT token_number FROM patients WHERE token_number LIKE ?
    ORDER BY token_number DESC LIMIT 1 *)
Definition last_token (pattern : string) (s : db) : option string :=
  Sql.greatest None
    (filter (Sql.like pattern) (map token_number (patients s))).

Definition generate_token (c : clock) (s : db) (department_code : option string)
  : outcome string :=
  let prefix := token_prefix c department_code in
  match last_token (prefix ++ "%") s with
  | Some result =>
      match Py.int (split_last "-" EmptyString result) with
      | Some last_number => Returned (prefix ++ format_03d (last_number + 1))
      | None => Raised ValueError
      end
  | None => Returned (prefix ++ format_03d 1)
  end.

(** *** calculate_wait_time *)

(** priority_level > ? OR (priority_level = ? AND registration_time < CURRENT_TIMESTAMP) *)
Definition ahead_clause (now : timestamp) (priority : Z) (p : patient) : bool :=
  (priority_level p >? priority)
  || ((priority_level p =? priority) && (registration_time p <? now)).

Definition patients_ahead (now : timestamp) (s : db) (priority : Z)
  (dept : option string) : Z :=
  match nonempty dept with
  | Some d =>
      count (fun p => is_waiting p && Sql.text_eq (department p) d
                      && ahead_clause now priority p) (patients s)
  | None =>
      count (fun p => is_waiting p && ahead_clause now priority p) (patients s)
  end.

Definition base_time (priority : Z) : Z :=
  if priority =? 1 then 0
  else if priority =? 2 then 20
  else 10.

(** SELECT current_wait_time FROM departments WHERE department_name = ? *)
Definition department_wait (s : db) (d : string) : option Z :=
  option_map current_wait_time
    (find (fun r => (department_name r =? d)%string) (departments s)).

Definition department_adjustment (s : db) (dept : option string) : Z :=
  match nonempty dept with
  | Some d =>
      match department_wait s d with
      | Some w => w
      | None => 0
      end
  | None => 0
  end.

(** [priority] is a parameter of the SELECT that counts the patients
    ahead: the call raises when it cannot be bound. *)
Definition calculate_wait_time (c : clock) (s : db) (priority : Z)
  (dept : option string) : outcome Z :=
  if Sql.binds priority then
    let ahead := patients_ahead (current_timestamp c) s priority dept in
    let base := base_time priority + department_adjustment s dept in
    let total_wait := base + ahead * 15 in
    Returned (Z.min total_wait 240)
  else Raised OverflowError.

(** *** get_queue_position *)

Definition get_patient (s : db) (t : string) : option patient :=
  find (token_is t) (patients s).

(** priority_level < ? OR (priority_level = ? AND registration_time < ?) *)
Definition before_clause (priority : Z) (reg_time : timestamp) (p : patient) : bool :=
  (priority_level p <? priority)
  || ((priority_level p =? priority) && (registration_time p <? reg_time)).

Definition get_queue_position (s : db) (t : string) : Z :=
  match get_patient s t with
  | None => -1
  | Some row =>
      count (fun p => is_waiting p
                      && before_clause (priority_level row) (registration_time row) p)
            (patients s) + 1
  end.

(** *** add_patient and register_patient *)

(** The dictionary [patient_data].  [pd_full_name = None] is the Python
    value None; [pd_priority_level = None] is a missing key, for which the
    code substitutes 2. *)
Record patient_data : Type := mkPatientData {
  pd_full_name : option string;
  pd_age : option Z;
  pd_gender : option string;
  pd_phone_number : option string;
  pd_emergency_contact : option string;
  pd_medical_condition : option string;
  pd_priority_level : option Z;
  pd_department : option string;
  pd_department_code : option string;
  pd_is_follow_up : bool;
  pd_notes : option string
}.

Definition gender_check (g : option string) : bool :=
  match g with
  | None => true
  | Some v => (v =? "Male")%string || (v =? "Female")%string || (v =? "Other")%string
  end.

Definition priority_or_default (d : patient_data) : Z :=
  match pd_priority_level d with Some n => n | None => 2 end.

(** The constraints of the [patients] table an INSERT can violate:
    UNIQUE(token_number), NOT NULL(full_name), the CHECK on gender and the
    CHECK on priority_level. *)
Definition insert_allowed (s : db) (token : string) (d : patient_data) : bool :=
  negb (existsb (token_is token) (patients s))
  && match pd_full_name d with Some _ => true | None => false end
  && gender_check (pd_gender d)
  && (1 <=? priority_or_default d) && (priority_or_default d <=? 3).

Definition new_patient (c : clock) (token : string) (name : string)
  (d : patient_data) (estimated_wait : Z) : patient :=
  {| token_number := token;
     full_name := name;
     age := pd_age d;
     gender := pd_gender d;
     phone_number := pd_phone_number d;
     emergency_contact := pd_emergency_contact d;
     medical_condition := pd_medical_condition d;
     priority_level := priority_or_default d;
     department := pd_department d;
     doctor_assigned := None;
     registration_time := current_timestamp c;
     consultation_start_time := None;
     consultation_end_time := None;
     status := waiting;
     estimated_wait_time := estimated_wait;
     notes := pd_notes d;
     is_emergency := match pd_priority_level d with
                     | Some n => n =? 1
                     | None => false
                     end;
     is_follow_up := pd_is_follow_up d |}.

Definition with_patients (s : db) (ps : list patient) : db :=
  mkDb ps (departments s) (doctors s) (queue_history s) (statistics s).
Definition with_doctors (s : db) (ds : list doctor) : db :=
  mkDb (patients s) (departments s) ds (queue_history s) (statistics s).
Definition with_departments (s : db) (ds : list department_row) : db :=
  mkDb (patients s) ds (doctors s) (queue_history s) (statistics s).
Definition log (s : db) (h : history_entry) : db :=
  mkDb (patients s) (departments s) (doctors s) (queue_history s ++ [h]) (statistics s).
Definition with_statistics (s : db) (st : list statistic) : db :=
  mkDb (patients s) (departments s) (doctors s) (queue_history s) st.

(** The integer parameters of the INSERT that can fail to bind: [age].
    The priority has been bound by [calculate_wait_time] already, the
    estimate is at most 240 and the two flags are 0 or 1. *)
Definition insert_binds (d : patient_data) : bool :=
  match pd_age d with
  | Some a => Sql.binds a
  | None => true
  end.

Definition add_patient (c : clock) (s : db) (d : patient_data)
  : outcome string * db :=
  match generate_token c s (pd_department_code d) with
  | Raised e => (Raised e, s)
  | Returned token =>
      match calculate_wait_time c s (priority_or_default d) (pd_department d) with
      | Raised e => (Raised e, s)
      | Returned estimated_wait =>
          if insert_binds d then
            match insert_allowed s token d, pd_full_name d with
            | true, Some name =>
                let s1 := with_patients s
                            (patients s
                             ++ [new_patient c token name d estimated_wait]) in
                (* get_queue_position runs on a connection of its own and
                   reads the committed database [s], where the new row is
                   not yet *)
                let s2 := log s1
                            (mkHistory token REGISTERED (current_timestamp c)
                               None (Some waiting)
                               None (Some (get_queue_position s token))
                               "system" None) in
                (Returned token, s2)
            | _, _ => (Raised IntegrityError, s)
            end
          else (Raised OverflowError, s)
      end
  end.

(** [HospitalQueueSystem.register_patient]; the printing is left out. *)
Definition register_patient (c : clock) (s : db) (name : string)
  (age : option Z) (condition : option string)
  (is_emergency is_followup : bool) (dept : option string)
  : outcome string * db :=
  let priority := if is_emergency then 1 else if is_followup then 3 else 2 in
  add_patient c s
    {| pd_full_name := Some name;
       pd_age := age;
       pd_gender := None;
       pd_phone_number := None;
       pd_emergency_contact := None;
       pd_medical_condition := condition;
       pd_priority_level := Some priority;
       pd_department := dept;
       pd_department_code := None;
       pd_is_follow_up := is_followup;
       pd_notes := None |}.

(** *** start_consultation *)

Definition set_in_consultation (now : timestamp) (doctor_name : option string)
  (p : patient) : patient :=
  mkPatient (token_number p) (full_name p) (age p) (gender p) (phone_number p)
    (emergency_contact p) (medical_condition p) (priority_level p) (department p)
    doctor_name (registration_time p) (Some now) (consultation_end_time p)
    in_consultation (estimated_wait_time p) (notes p) (is_emergency p)
    (is_follow_up p).

Definition set_completed (now : timestamp) (p : patient) : patient :=
  mkPatient (token_number p) (full_name p) (age p) (gender p) (phone_number p)
    (emergency_contact p) (medical_condition p) (priority_level p) (department p)
    (doctor_assigned p) (registration_time p) (consultation_start_time p) (Some now)
    completed (estimated_wait_time p) (notes p) (is_emergency p) (is_follow_up p).

Definition set_cancelled (p : patient) : patient :=
  mkPatient (token_number p) (full_name p) (age p) (gender p) (phone_number p)
    (emergency_contact p) (medical_condition p) (priority_level p) (department p)
    (doctor_assigned p) (registration_time p) (consultation_start_time p)
    (consultation_end_time p)
    cancelled (estimated_wait_time p) (notes p) (is_emergency p) (is_follow_up p).

(** UPDATE t SET ... WHERE cond: the rows that satisfy [cond] are rewritten
    in place; [rowcount] is their number. *)
Definition update_where {A : Type} (cond : A -> bool) (set : A -> A)
  (rows : list A) : list A :=
  map (fun r => if cond r then set r else r) rows.

Definition rowcount {A : Type} (cond : A -> bool) (rows : list A) : Z :=
  count cond rows.

Definition named (n : string) (d : doctor) : bool := (doctor_name d =? n)%string.

(** SET current_patient_token = ?, is_available = 0 *)
Definition bind_doctor (t : string) (d : doctor) : doctor :=
  mkDoctor (doctor_name d) (department_id d) (specialization d) false (Some t).

(** SET current_patient_token = NULL, is_available = 1 *)
Definition free_doctor (d : doctor) : doctor :=
  mkDoctor (doctor_name d) (department_id d) (specialization d) true None.

Definition start_consultation (c : clock) (s : db) (t : string)
  (doctor_name : option string) : outcome bool * db :=
  let old_position := get_queue_position s t in
  let cond := fun p => token_is t p && is_waiting p in
  let rows_affected := rowcount cond (patients s) in
  let s1 := with_patients s
              (update_where cond
                 (set_in_consultation (current_timestamp c) doctor_name)
                 (patients s)) in
  if rows_affected >? 0 then
    let s2 := log s1
                (mkHistory t CONSULTATION_STARTED (current_timestamp c)
                   (Some waiting) (Some in_consultation)
                   (Some old_position) None "system" None) in
    let s3 := match nonempty doctor_name with
              | Some n => with_doctors s2 (update_where (named n) (bind_doctor t) (doctors s2))
              | None => s2
              end in
    (Returned true, s3)
  else (Returned false, s).

(** *** update_daily_statistics *)

(** DATE(ts): the day a timestamp falls on. *)
Definition utc_date (ts : timestamp) : Z := ts / 86400.

Fixpoint distinct (l : list string) : list string :=
  match l with
  | [] => []
  | x :: rest => if existsb (String.eqb x) rest then distinct rest else x :: distinct rest
  end.

Definition assigned_doctors (ps : list patient) : list string :=
  flat_map (fun p => match doctor_assigned p with Some n => [n] | None => [] end) ps.

Definition compute_statistic (c : clock) (s : db) : statistic :=
  let today_completed :=
    filter (fun p => (utc_date (registration_time p) =? utc_date (current_timestamp c))
                     && status_eqb (status p) completed) (patients s) in
  {| stat_date := today_iso c;
     total_patients := Z.of_nat (List.length today_completed);
     emergency_cases := count (fun p => priority_level p =? 1) today_completed;
     regular_cases := count (fun p => priority_level p =? 2) today_completed;
     follow_up_cases := count (fun p => priority_level p =? 3) today_completed;
     doctors_available :=
       Z.of_nat (List.length (distinct (assigned_doctors today_completed))) |}.

Definition dated (day : string) (r : statistic) : bool := (stat_date r =? day)%string.

Definition update_daily_statistics (write_locked : bool) (c : clock) (s : db)
  : outcome unit * db :=
  if count (dated (today_iso c)) (statistics s) =? 0 then
    let row := compute_statistic c s in
    if write_locked then (Raised OperationalError, s)
    else (Returned tt, with_statistics s (statistics s ++ [row]))
  else (Returned tt, s).

(** *** complete_consultation *)

Definition is_in_consultation (p : patient) : bool :=
  status_eqb (status p) in_consultation.

Definition complete_consultation (c : clock) (s : db) (t : string)
  : outcome bool * db :=
  let doctor_name :=
    match get_patient s t with
    | Some row => doctor_assigned row
    | None => None
    end in
  let cond := fun p => token_is t p && is_in_consultation p in
  let rows_affected := rowcount cond (patients s) in
  let s1 := with_patients s
              (update_where cond (set_completed (current_timestamp c)) (patients s)) in
  if rows_affected >? 0 then
    let s2 := log s1
                (mkHistory t CONSULTATION_COMPLETED (current_timestamp c)
                   (Some in_consultation) (Some completed)
                   None None "system" None) in
    let s3 := match nonempty doctor_name with
              | Some n => with_doctors s2 (update_where (named n) free_doctor (doctors s2))
              | None => s2
              end in
    (* self.update_daily_statistics(): a second connection, opened while
       this transaction holds the write lock; it sees the committed [s] *)
    match fst (update_daily_statistics true c s) with
    | Raised e => (Raised e, s)
    | Returned _ => (Returned true, s3)
    end
  else (Returned false, s).

(** *** cancel_patient *)

Definition cancel_patient (c : clock) (s : db) (t : string)
  (reason : option string) : outcome bool * db :=
  match get_patient s t with
  | None => (Returned false, s)
  | Some row =>
      let old_status := status row in
      let old_position :=
        if status_eqb old_status waiting then Some (get_queue_position s t)
        else None in
      let rows_affected := rowcount (token_is t) (patients s) in
      let s1 := with_patients s (update_where (token_is t) set_cancelled (patients s)) in
      if rows_affected >? 0 then
        (Returned true,
         log s1 (mkHistory t CANCELLED (current_timestamp c)
                   (Some old_status) (Some cancelled)
                   old_position None "system" reason))
      else (Returned false, s)
  end.

(** *** update_department_wait_time *)

Definition set_wait_time (w : Z) (r : department_row) : department_row :=
  mkDepartment (department_name r) (department_code r) w (active_doctors r).

(** [wait_time] is a parameter of the UPDATE: the call raises when it
    cannot be bound, and nothing is written. *)
Definition update_department_wait_time (s : db) (dept : string) (wait_time : Z)
  : outcome bool * db :=
  let cond := fun r => (department_name r =? dept)%string in
  if Sql.binds wait_time then
    (Returned (rowcount cond (departments s) >? 0),
     with_departments s
       (update_where cond (set_wait_time wait_time) (departments s)))
  else (Raised OverflowError, s).

(** *** get_current_queue and get_next_patient *)

(** ORDER BY priority_level ASC, registration_time ASC: [a] may come
    before [b]. *)
Definition queue_le (a b : patient) : bool :=
  (priority_level a <? priority_level b)
  || ((priority_level a =? priority_level b)
      && (registration_time a <=? registration_time b)).

Fixpoint queue_insert (p : patient) (sorted : list patient) : list patient :=
  match sorted with
  | [] => [p]
  | q :: rest => if queue_le p q then p :: sorted else q :: queue_insert p rest
  end.

(** Rows with equal sort keys stay in rowid order. *)
Fixpoint order_by_queue (rows : list patient) : list patient :=
  match rows with
  | [] => []
  | p :: rest => queue_insert p (order_by_queue rest)
  end.

(** The rows of the waiting queue; the column projection is left out. *)
Definition get_current_queue (s : db) (dept : option string) : list patient :=
  match nonempty dept with
  | Some d =>
      order_by_queue
        (filter (fun p => is_waiting p && Sql.text_eq (department p) d) (patients s))
  | None => order_by_queue (filter is_waiting (patients s))
  end.

Definition get_next_patient (s : db) : option patient :=
  hd_error (order_by_queue (filter is_waiting (patients s))).

(** ** Runs of the engine *)

Inductive operation : Type :=
| AddPatient (d : patient_data)
| StartConsultation (t : string) (doctor_name : option string)
| CompleteConsultation (t : string)
| CancelPatient (t : string) (reason : option string)
| UpdateDailyStatistics
| UpdateDepartmentWaitTime (dept : string) (wait_time : Z).

Definition step (s : db) (call : clock * operation) : db :=
  let c := fst call in
  match snd call with
  | AddPatient d => snd (add_patient c s d)
  | StartConsultation t doctor_name => snd (start_consultation c s t doctor_name)
  | CompleteConsultation t => snd (complete_consultation c s t)
  | CancelPatient t reason => snd (cancel_patient c s t reason)
  | UpdateDailyStatistics => snd (update_daily_statistics false c s)
  | UpdateDepartmentWaitTime dept w => snd (update_department_wait_time s dept w)
  end.

Definition run (s : db) (calls : list (clock * operation)) : db :=
  fold_left step calls s.

(** ** Invariants *)

(** At most one row of [statistics] per date. *)
Definition one_row_per_date (s : db) : Prop := NoDup (map stat_date (statistics s)).

(** A doctor with an assigned token is unavailable. *)
Definition doctor_consistent (d : doctor) : Prop :=
  current_patient_token d <> None -> is_available d = false.

Definition doctors_consistent (s : db) : Prop :=
  Forall doctor_consistent (doctors s).

(** [a] is served strictly before [b] in the queue order. *)
Definition strictly_before (a b : patient) : Prop :=
  priority_level a < priority_level b
  \/ (priority_level a = priority_level b
      /\ registration_time a < registration_time b).

(** [a] may stand before [b] in the ordered queue. *)
Definition may_precede (a b : patient) : Prop := queue_le a b = true.

Definition same_queue_key (a b : patient) : Prop :=
  priority_level a = priority_level b
  /\ registration_time a = registration_time b.

(** ** The scope of the wait-time count *)

(** The rows [calculate_wait_time] looks at: every waiting patient, or
    those of the given department when one is given. *)
Definition in_scope (dept : option string) (p : patient) : bool :=
  is_waiting p
  && match nonempty dept with
     | Some d => Sql.text_eq (department p) d
     | None => true
     end.

Definition same_class_earlier (now : timestamp) (priority : Z) (p : patient) : bool :=
  (priority_level p =? priority) && (registration_time p <? now).

(** ** The specification's reading of five operations

    Each definition below follows the words of the specification, to be
    compared with the code above. *)

Module Spec.

(** countAhead: the waiting patients of a strictly more urgent class
    (lower class number) plus those of the same class registered
    earlier. *)
Definition count_ahead (now : timestamp) (s : db) (priority : Z) : Z :=
  count (fun p => is_waiting p
                  && ((priority_level p <? priority)
                      || same_class_earlier now priority p)) (patients s).

(** min(base + departmentBaseline + 15 * countAhead, 240) *)
Definition estimated_wait (c : clock) (s : db) (priority : Z)
  (dept : option string) : Z :=
  Z.min (base_time priority + department_adjustment s dept
         + 15 * count_ahead (current_timestamp c) s priority) 240.

Definition wait_time_as_specified : Prop :=
  forall c s priority dept,
    1 <= priority <= 3 ->
    calculate_wait_time c s priority dept
    = Returned (estimated_wait c s priority dept).


(** QueuePosition is the sentinel for a token that is not waiting. *)
Definition sentinel_unless_waiting : Prop :=
  forall s t row,
    get_patient s t = Some row ->
    status row <> waiting ->
    get_queue_position s t = -1.

(** No two distinct waiting patients share a position. *)
Definition positions_injective : Prop :=
  forall s t1 t2 p1 p2,
    get_patient s t1 = Some p1 -> status p1 = waiting ->
    get_patient s t2 = Some p2 -> status p2 = waiting ->
    t1 <> t2 ->
    get_queue_position s t1 <> get_queue_position s t2.

(** Register fails on the empty name and inserts nothing. *)
Definition empty_name_rejected : Prop :=
  forall c s age condition is_emergency is_followup dept,
    let r := register_patient c s EmptyString age condition is_emergency is_followup dept in
    (exists e, fst r = Raised e) /\ patients (snd r) = patients s.

End Spec.

(** ** Concrete runs *)

Module Scenario.

(** 2023-12-25 00:00:00 UTC plus [n] seconds. *)
Definition at_time (n : Z) : clock :=
  mkClock "20231225" "2023-12-25" (1703462400 + n).

Definition register (c : clock) (s : db) (name : string)
  (is_emergency is_followup : bool) (dept : option string) : db :=
  snd (register_patient c s name None None is_emergency is_followup dept).

(** One Regular patient waiting in Pediatrics. *)
Definition one_in_pediatrics : db :=
  register (at_time 0) init_database "Ann" false false (Some "Pediatrics").

(** Three Regular patients waiting, registered a minute apart. *)
Definition three_regular : db :=
  register (at_time 120)
    (register (at_time 60)
       (register (at_time 0) init_database "Ann" false false None)
       "Bob" false false None)
    "Cid" false false None.

(** Two Regular patients registered within the same second. *)
Definition same_second : db :=
  register (at_time 0)
    (register (at_time 0) init_database "Ann" false false None)
    "Bob" false false None.

(** Ann is registered, then called in by Dr. Smith. *)
Definition ann_with_smith : db :=
  snd (start_consultation (at_time 600)
         (register (at_time 0) init_database "Ann" false false None)
         "HOSP-20231225-001" (Some "Dr. Smith")).

(** Ann and Bob are registered; Dr. Smith has called in Ann. *)
Definition smith_busy_bob_waiting : db :=
  snd (start_consultation (at_time 600)
         (register (at_time 60)
            (register (at_time 0) init_database "Ann" false false None)
            "Bob" false false None)
         "HOSP-20231225-001" (Some "Dr. Smith")).

(** The statistics row of the day has been written, then Ann is called
    in by Dr. Smith. *)
Definition ann_with_smith_cached : db :=
  snd (update_daily_statistics false (at_time 700) ann_with_smith).

(** [n] registrations under the HOSP prefix, one a minute from second
    [k] of the day. *)
Fixpoint register_many (n : nat) (k : Z) (s : db) : db :=
  match n with
  | O => s
  | S m => register_many m (k + 60) (register (at_time k) s "Patient" false false None)
  end.

End Scenario.

(** ** Further operations of [database.py] *)

(** *** get_patient_by_token *)

(** CASE priority_level WHEN 1 THEN 'Emergency' WHEN 2 THEN 'Regular'
    WHEN 3 THEN 'Follow-up' END: NULL for any other class. *)
Definition priority_text (priority : Z) : option string :=
  if priority =? 1 then Some "Emergency"
  else if priority =? 2 then Some "Regular"
  else if priority =? 3 then Some "Follow-up"
  else None.

(** The dictionary of one row: the columns of the row and [priority_text]. *)
Definition get_patient_by_token (s : db) (t : string)
  : option (patient * option string) :=
  match get_patient s t with
  | Some row => Some (row, priority_text (priority_level row))
  | None => None
  end.

(** *** get_current_patient *)

(** ORDER BY consultation_start_time ASC, where NULL sorts first. *)
Definition started_le (a b : patient) : bool :=
  match consultation_start_time a, consultation_start_time b with
  | None, _ => true
  | Some _, None => false
  | Some x, Some y => x <=? y
  end.

(** The first row in that order; of rows that started together the one
    with the lowest rowid. *)
Fixpoint earliest_started (best : patient) (rows : list patient) : patient :=
  match rows with
  | [] => best
  | p :: rest => earliest_started (if started_le best p then best else p) rest
  end.

(** LEFT JOIN doctors d ON p.doctor_assigned = d.doctor_name: the column
    d.doctor_name is the assigned name when a doctor row carries it, and
    NULL otherwise. *)
Definition joined_doctor_name (s : db) (p : patient) : option string :=
  match doctor_assigned p with
  | Some n => if existsb (named n) (doctors s) then Some n else None
  | None => None
  end.

(** The tuple (token_number, full_name, department, doctor_name,
    consultation_start_time) of the patient in consultation. *)
Definition get_current_patient (s : db)
  : option (string * string * option string * option string * option timestamp) :=
  match filter is_in_consultation (patients s) with
  | [] => None
  | p :: rest =>
      let row := earliest_started p rest in
      Some (token_number row, full_name row, department row,
            joined_doctor_name s row, consultation_start_time row)
  end.

(** *** get_available_doctors *)



(** *** get_average_waiting_count *)

(** The first instant of SQLite's calendar, Julian day 0 (noon of
    24 November 4714 BC): 2440587.5 days before 1970-01-01 00:00:00. *)
Definition julian_day_zero : timestamp := - 210866760000.

(** datetime('now', '-N <unit>') for an integer [n]: the text "--5 days"
    that a negative [n] produces is no modifier and the value is NULL; so
    is the value when the shifted instant falls before the calendar.
    SQLite also refuses an N of 5373485 days or more (about 1.29e11
    hours): from a clock reading up to the year 9999, the last that
    Python's [datetime.now] and the calendar hold, such an N leads before
    Julian day 0, so the test on the shifted instant covers it. *)
Definition time_ago (now : timestamp) (n : Z) (unit_seconds : Z)
  : option timestamp :=
  if n <? 0 then None
  else if now - n * unit_seconds <? julian_day_zero then None
  else Some (now - n * unit_seconds).

(** The integer entries of the dictionary; average_wait_time,
    max_wait_time, min_wait_time and department_breakdown are left out. *)
Record waiting_summary : Type := mkSummary {
  total_patients_last_24h : Z;
  summary_emergency_cases : Z;
  summary_regular_cases : Z;
  summary_follow_up_cases : Z;
  currently_waiting : Z
}.

(** registration_time >= datetime('now', ?) AND status IN ('waiting', 'completed') *)
Definition in_window (since : option timestamp) (p : patient) : bool :=
  match since with
  | Some t => (t <=? registration_time p)
              && (status_eqb (status p) waiting || status_eqb (status p) completed)
  | None => false
  end.

Definition get_average_waiting_count (c : clock) (s : db) (hours : Z)
  : waiting_summary :=
  let window := filter (in_window (time_ago (current_timestamp c) hours 3600))
                  (patients s) in
  {| total_patients_last_24h := Z.of_nat (List.length window);
     summary_emergency_cases := count (fun p => priority_level p =? 1) window;
     summary_regular_cases := count (fun p => priority_level p =? 2) window;
     summary_follow_up_cases := count (fun p => priority_level p =? 3) window;
     currently_waiting := count is_waiting (patients s) |}.

(** *** clear_old_records *)

Definition before_cutoff (cut : option timestamp) (ts : timestamp) : bool :=
  match cut with
  | Some t => ts <? t
  | None => false
  end.

(** registration_time < datetime('now', ?) AND status = 'completed' *)
Definition purgeable (cut : option timestamp) (p : patient) : bool :=
  before_cutoff cut (registration_time p) && status_eqb (status p) completed.

(** FOREIGN KEY (token_number) REFERENCES patients(token_number), with
    PRAGMA foreign_keys = ON: a history row refers to a patient the DELETE
    removes. *)
Definition orphaned_by_purge (cut : option timestamp) (s : db)
  (h : history_entry) : bool :=
  existsb (fun p => purgeable cut p && token_is (h_token_number h) p) (patients s).

Definition clear_old_records (c : clock) (s : db) (days : Z) : outcome Z * db :=
  let cut := time_ago (current_timestamp c) days 86400 in
  let patients_deleted := rowcount (purgeable cut) (patients s) in
  if existsb (orphaned_by_purge cut s) (queue_history s)
  then (Raised IntegrityError, s)
  else
    let old := fun h => before_cutoff cut (action_time h) in
    let history_deleted := rowcount old (queue_history s) in
    (Returned (patients_deleted + history_deleted),
     mkDb (filter (fun p => negb (purgeable cut p)) (patients s))
       (departments s) (doctors s)
       (filter (fun h => negb (old h)) (queue_history s))
       (statistics s)).

(** ** Further operations of [hospital_queue.py] *)

Module HospitalQueueSystem.

(** [complete_consultation(token=None)]: without a token the token of
    [get_next_patient] is taken; any exception is caught and turned into
    False.  The printing is left out. *)
Definition complete_consultation (c : clock) (s : db) (token : option string)
  : bool * db :=
  let complete := fun t =>
    match complete_consultation c s t with
    | (Returned success, s') => (success, s')
    | (Raised _, s') => (false, s')
    end in
  match token with
  | None =>
      match get_next_patient s with
      | None => (false, s)
      | Some next_patient => complete (token_number next_patient)
      end
  | Some t => complete t
  end.

(** [start_consultation(token, doctor_name=None)], exceptions caught. *)
Definition start_consultation (c : clock) (s : db) (token : string)
  (doctor_name : option string) : bool * db :=
  match start_consultation c s token doctor_name with
  | (Returned success, s') => (success, s')
  | (Raised _, s') => (false, s')
  end.

(** [department] is "Emergency" when the caller leaves it out. *)
Definition register_emergency_patient (c : clock) (s : db) (name : string)
  (condition : option string) (dept : option string) : outcome string * db :=
  register_patient c s name None condition true false dept.

Definition register_followup_patient (c : clock) (s : db) (name : string)
  (dept : option string) : outcome string * db :=
  register_patient c s name None None false true dept.

End HospitalQueueSystem.

(** ** Constraints of the schema and the life of a row *)

(** UNIQUE(token_number) *)
Definition tokens_unique (s : db) : Prop := NoDup (map token_number (patients s)).

(** CHECK(priority_level BETWEEN 1 AND 3) *)
Definition priorities_checked (s : db) : Prop :=
  forall p, In p (patients s) -> 1 <= priority_level p <= 3.

(** FOREIGN KEY of [queue_history]: every entry names an existing patient. *)
Definition history_refers (s : db) : Prop :=
  forall h, In h (queue_history s) ->
            existsb (token_is (h_token_number h)) (patients s) = true.

(** The statuses a row with status [a] can have after further calls. *)
Definition may_become (a b : patient_status) : bool :=
  match a, b with
  | waiting, _ => true
  | in_consultation, (in_consultation | completed | cancelled) => true
  | completed, (completed | cancelled) => true
  | cancelled, cancelled => true
  | _, _ => false
  end.

(** What the engine keeps of a row, and how its status moves. *)
Definition row_persists (p p' : patient) : Prop :=
  token_number p' = token_number p
  /\ full_name p' = full_name p
  /\ priority_level p' = priority_level p
  /\ department p' = department p
  /\ registration_time p' = registration_time p
  /\ estimated_wait_time p' = estimated_wait_time p
  /\ may_become (status p) (status p') = true.

(** Every patient has at least one history entry. *)
Definition every_patient_logged (s : db) : Prop :=
  forall p, In p (patients s) ->
            exists h, In h (queue_history s) /\ h_token_number h = token_number p.

(** ** A day at the clinic *)

Module Cases.

Definition regular (name : string) (dept : option string) : patient_data :=
  mkPatientData (Some name) None None None None None (Some 2) dept None false None.

(** Ann and Bob register, Dr. Smith calls Ann in, the statistics row of
    the day is written, Ann's consultation is completed, Cid registers
    for follow-up and Bob cancels. *)
Definition day_calls : list (clock * operation) :=
  [ (Scenario.at_time 0, AddPatient (regular "Ann" (Some "General Medicine")));
    (Scenario.at_time 60, AddPatient (regular "Bob" None));
    (Scenario.at_time 600, StartConsultation "HOSP-20231225-001" (Some "Dr. Smith"));
    (Scenario.at_time 700, UpdateDailyStatistics);
    (Scenario.at_time 1800, CompleteConsultation "HOSP-20231225-001");
    (Scenario.at_time 1900,
     AddPatient (mkPatientData (Some "Cid") None None None None None (Some 3)
                   None None true None));
    (Scenario.at_time 2000, CancelPatient "HOSP-20231225-002" (Some "left")) ].

Definition day : db := run init_database day_calls.

(** The same clinic two days later. *)
Definition two_days_later : clock :=
  mkClock "20231227" "2023-12-27" (1703462400 + 172800).

End Cases.

(** * Properties *)

(** ** Counting and updating rows *)

Lemma status_eqb_spec (a b : patient_status) : reflect (a = b) (status_eqb a b).
Proof. destruct a, b; simpl; constructor; congruence. Qed.

Lemma is_waiting_iff (p : patient) : is_waiting p = true <-> status p = waiting.
Proof. unfold is_waiting. destruct (status_eqb_spec (status p) waiting); intuition congruence. Qed.

Lemma count_nonneg {A : Type} (f : A -> bool) (l : list A) : 0 <= count f l.
Proof. unfold count. lia. Qed.

Lemma count_cons {A : Type} (f : A -> bool) (x : A) (l : list A) :
  count f (x :: l) = (if f x then 1 else 0) + count f l.
Proof. unfold count. cbn [filter]. destruct (f x); cbn [List.length]; lia. Qed.

Lemma count_le {A : Type} (f g : A -> bool) (l : list A) :
  (forall x, In x l -> f x = true -> g x = true) ->
  count f l <= count g l.
Proof.
  induction l as [|x l IH]; intros Hfg.
  - unfold count; simpl; lia.
  - rewrite !count_cons.
    assert (IH' : count f l <= count g l) by (apply IH; intros; apply Hfg; simpl; auto).
    destruct (f x) eqn:Hf.
    + rewrite (Hfg x (or_introl eq_refl) Hf). lia.
    + destruct (g x); lia.
Qed.

Lemma count_lt {A : Type} (f g : A -> bool) (l : list A) (w : A) :
  (forall x, In x l -> f x = true -> g x = true) ->
  In w l -> f w = false -> g w = true ->
  count f l < count g l.
Proof.
  induction l as [|x l IH]; intros Hfg Hin Hfw Hgw; [destruct Hin|].
  rewrite !count_cons.
  assert (Hle : count f l <= count g l) by (apply count_le; intros; apply Hfg; simpl; auto).
  destruct Hin as [-> | Hin].
  - rewrite Hfw, Hgw. lia.
  - assert (count f l < count g l) by (apply IH; auto; intros; apply Hfg; simpl; auto).
    destruct (f x) eqn:Hf.
    + rewrite (Hfg x (or_introl eq_refl) Hf). lia.
    + destruct (g x); lia.
Qed.

Lemma count_ext {A : Type} (f g : A -> bool) (l : list A) :
  (forall x, In x l -> f x = g x) -> count f l = count g l.
Proof.
  intros H. apply Z.le_antisymm; apply count_le; intros x Hin Hx.
  - rewrite <- H; auto.
  - rewrite H; auto.
Qed.

Lemma count_zero {A : Type} (f : A -> bool) (l : list A) :
  count f l = 0 <-> forall x, In x l -> f x = false.
Proof.
  induction l as [|x l IH].
  - unfold count; simpl; intuition.
  - rewrite count_cons. pose proof (count_nonneg f l). split.
    + intros H0 y [<- | Hy].
      * destruct (f x); [lia | reflexivity].
      * apply IH; auto. destruct (f x); lia.
    + intros Hall. rewrite (Hall x (or_introl eq_refl)).
      simpl. apply IH. intros; apply Hall; simpl; auto.
Qed.

Lemma count_pos {A : Type} (f : A -> bool) (l : list A) (w : A) :
  In w l -> f w = true -> 0 < count f l.
Proof.
  intros Hin Hw. pose proof (count_nonneg f l).
  destruct (Z.eq_dec (count f l) 0) as [E|]; [|lia].
  rewrite count_zero in E. rewrite (E w Hin) in Hw. discriminate.
Qed.

Lemma count_filter {A : Type} (f g : A -> bool) (l : list A) :
  count (fun x => f x && g x) l = count g (filter f l).
Proof.
  induction l as [|x l IH]; [reflexivity|].
  rewrite count_cons. simpl. destruct (f x); simpl.
  - rewrite count_cons. lia.
  - exact IH.
Qed.

Lemma find_update_where {A : Type} (g cond : A -> bool) (set : A -> A) (l : list A) :
  (forall x, g (set x) = g x) ->
  find g (update_where cond set l)
  = option_map (fun x => if cond x then set x else x) (find g l).
Proof.
  intros Hg. unfold update_where. induction l as [|x l IH]; [reflexivity|].
  simpl. destruct (cond x) eqn:Hc.
  - rewrite Hg. destruct (g x); simpl; [rewrite Hc; reflexivity | exact IH].
  - destruct (g x); simpl; [rewrite Hc; reflexivity | exact IH].
Qed.

Lemma nonempty_some (n : string) : n <> EmptyString -> nonempty (Some n) = Some n.
Proof.
  intros Hn. unfold nonempty. destruct (n =? EmptyString)%string eqn:E; [|reflexivity].
  apply String.eqb_eq in E. contradiction.
Qed.

Lemma get_patient_some (s : db) (t : string) (row : patient) :
  get_patient s t = Some row -> In row (patients s) /\ token_number row = t.
Proof.
  unfold get_patient. intros H. apply find_some in H. destruct H as [Hin Ht].
  split; [exact Hin|]. unfold token_is in Ht. now apply String.eqb_eq.
Qed.

(** Projections of a database built by the table setters. *)
Ltac db_simpl :=
  cbn [fst snd log with_patients with_doctors with_departments with_statistics
       patients doctors departments queue_history statistics].

(** ** start_consultation *)

(** C6.  When no row of [patients] carries the token with status
    [waiting] (the token is unknown, or its patient is in consultation,
    completed or cancelled), [start_consultation] returns the boolean
    False, raises nothing, and commits the database it found: patients,
    doctors, history, departments and statistics are all unchanged. *)
Theorem start_consultation_refused_leaves_store (c : clock) (s : db)
  (t : string) (doctor_name : option string) :
  (forall p, In p (patients s) -> token_number p = t -> status p <> waiting) ->
  start_consultation c s t doctor_name = (Returned false, s).
Proof.
  intros Hnone. unfold start_consultation.
  assert (Hcond : forall p, In p (patients s) ->
                   token_is t p && is_waiting p = false).
  { intros p Hin. destruct (token_is t p) eqn:Ht; [|reflexivity]. simpl.
    apply String.eqb_eq in Ht.
    destruct (is_waiting p) eqn:Hw; [|reflexivity].
    apply is_waiting_iff in Hw. now destruct (Hnone p Hin Ht). }
  unfold rowcount. rewrite (proj2 (count_zero _ _) Hcond). reflexivity.
Qed.

Lemma start_consultation_refused_leaves_store_witness :
  start_consultation (Scenario.at_time 900) Scenario.ann_with_smith
    "HOSP-20231225-001" (Some "Dr. Johnson")
  = (Returned false, Scenario.ann_with_smith)
  /\ start_consultation (Scenario.at_time 900) Scenario.ann_with_smith
       "HOSP-20231225-777" None
     = (Returned false, Scenario.ann_with_smith).
Proof.
  split; apply start_consultation_refused_leaves_store;
    intros p Hin Ht; vm_compute in Hin;
    destruct Hin as [<- | []]; vm_compute; discriminate.
Defined.

(** C10.  [start_consultation] never looks at the doctors table before it
    writes: for a waiting patient it returns True whatever doctors exist
    and whatever their state, and every doctor row with the given name
    ends up unavailable and bound to this token, the former binding
    overwritten. *)
Theorem start_consultation_no_doctor_validation (c : clock) (s : db)
  (t n : string) (p : patient) :
  In p (patients s) -> token_number p = t -> status p = waiting ->
  n <> EmptyString ->
  let r := start_consultation c s t (Some n) in
  fst r = Returned true
  /\ In (set_in_consultation (current_timestamp c) (Some n) p) (patients (snd r))
  /\ doctors (snd r) = update_where (named n) (bind_doctor t) (doctors s)
  /\ (forall d, In d (doctors (snd r)) -> doctor_name d = n ->
        current_patient_token d = Some t /\ is_available d = false)
  /\ (forall d, In d (doctors s) -> doctor_name d <> n -> In d (doctors (snd r))).
Proof.
  intros Hin Ht Hw Hn r. subst r. unfold start_consultation.
  assert (Hc : token_is t p && is_waiting p = true).
  { unfold token_is. rewrite Ht, String.eqb_refl. simpl. now apply is_waiting_iff. }
  assert (Hpos : (rowcount (fun q => token_is t q && is_waiting q) (patients s) >? 0) = true).
  { apply Z.gtb_lt. eapply count_pos; eauto. }
  rewrite Hpos.
  rewrite (nonempty_some n Hn). db_simpl.
  split; [reflexivity|]. split.
  { unfold update_where. apply in_map_iff. exists p. now rewrite Hc. }
  split; [reflexivity|]. split.
  - intros d Hd Hname. unfold update_where in Hd. apply in_map_iff in Hd.
    destruct Hd as [d0 [Hd0 _]]. destruct (named n d0) eqn:E; subst d.
    + simpl. auto.
    + unfold named in E. apply String.eqb_neq in E. contradiction.
  - intros d Hd Hname. unfold update_where. apply in_map_iff. exists d.
    split; [|exact Hd].
    assert (E : named n d = false) by (unfold named; now apply String.eqb_neq).
    now rewrite E.
Qed.

Lemma start_consultation_no_doctor_validation_witness :
  In (mkDoctor "Dr. Smith" 1 "Emergency Medicine" false (Some "HOSP-20231225-001"))
     (doctors Scenario.smith_busy_bob_waiting)
  /\ fst (start_consultation (Scenario.at_time 900) Scenario.smith_busy_bob_waiting
            "HOSP-20231225-002" (Some "Dr. Smith")) = Returned true
  /\ In (mkDoctor "Dr. Smith" 1 "Emergency Medicine" false (Some "HOSP-20231225-002"))
        (doctors (snd (start_consultation (Scenario.at_time 900)
                         Scenario.smith_busy_bob_waiting
                         "HOSP-20231225-002" (Some "Dr. Smith"))))
  /\ fst (start_consultation (Scenario.at_time 900) Scenario.smith_busy_bob_waiting
            "HOSP-20231225-002" (Some "Dr. Nobody")) = Returned true.
Proof.
  split; [vm_compute; auto|].
  assert (Hbob : exists p, In p (patients Scenario.smith_busy_bob_waiting)
                           /\ token_number p = "HOSP-20231225-002"
                           /\ status p = waiting).
  { eexists. split; [vm_compute; right; left; reflexivity|].
    split; reflexivity. }
  destruct Hbob as [p [Hin [Ht Hw]]].
  assert (Hsmith : "Dr. Smith" <> EmptyString) by discriminate.
  assert (Hnobody : "Dr. Nobody" <> EmptyString) by discriminate.
  split.
  { exact (proj1 (start_consultation_no_doctor_validation (Scenario.at_time 900)
             Scenario.smith_busy_bob_waiting "HOSP-20231225-002" "Dr. Smith"
             p Hin Ht Hw Hsmith)). }
  split; [vm_compute; auto|].
  exact (proj1 (start_consultation_no_doctor_validation (Scenario.at_time 900)
           Scenario.smith_busy_bob_waiting "HOSP-20231225-002" "Dr. Nobody"
           p Hin Ht Hw Hnobody)).
Defined.

(** ** cancel_patient *)






(** ** register_patient *)

(** C7, as the code has it.  Neither [register_patient] nor [add_patient]
    looks at the name: a registration with the empty name succeeds
    whenever the generated token is not taken yet and the age, when one is
    given, fits a signed 64-bit integer; it returns that token and appends
    one waiting patient whose name is the empty string.  With an age
    outside 64 bits it raises OverflowError and inserts nothing. *)
Theorem register_patient_accepts_empty_name (c : clock) (s : db)
  (age : option Z) (condition : option string)
  (is_emergency is_followup : bool) (dept : option string) (token : string) :
  generate_token c s None = Returned token ->
  existsb (token_is token) (patients s) = false ->
  let r := register_patient c s EmptyString age condition is_emergency
             is_followup dept in
  (match age with Some a => Sql.binds a = true | None => True end ->
   fst r = Returned token
   /\ exists p, patients (snd r) = (patients s ++ [p])%list
                /\ token_number p = token
                /\ full_name p = EmptyString
                /\ status p = waiting)
  /\ (forall a, age = Some a -> Sql.binds a = false ->
        r = (Raised OverflowError, s)).
Proof.
  intros Hgen Hfresh r. subst r. unfold register_patient, add_patient.
  cbn [pd_department_code pd_department]. rewrite Hgen.
  unfold calculate_wait_time, insert_binds, insert_allowed, priority_or_default.
  cbn [pd_full_name pd_gender pd_age pd_priority_level gender_check].
  assert (Hb : Sql.binds (if is_emergency then 1 else if is_followup then 3 else 2)
               = true)
    by (destruct is_emergency, is_followup; reflexivity).
  assert (H1 : (1 <=? (if is_emergency then 1 else if is_followup then 3 else 2))
               = true)
    by (destruct is_emergency, is_followup; reflexivity).
  assert (H3 : ((if is_emergency then 1 else if is_followup then 3 else 2) <=? 3)
               = true)
    by (destruct is_emergency, is_followup; reflexivity).
  rewrite Hb, Hfresh, H1, H3. cbn [negb andb].
  split.
  - intros Hage.
    assert (Ha : match age with Some a => Sql.binds a | None => true end = true)
      by (destruct age; [exact Hage | reflexivity]).
    rewrite Ha. db_simpl. split; [reflexivity|].
    eexists. split; [reflexivity|]. repeat split.
  - intros a -> Ha. now rewrite Ha.
Qed.

Lemma register_patient_accepts_empty_name_witness :
  fst (register_patient (Scenario.at_time 0) init_database EmptyString
         (Some 41) None false false (Some "General Medicine"))
  = Returned "HOSP-20231225-001"
  /\ register_patient (Scenario.at_time 0) init_database EmptyString
       (Some 9223372036854775808) None false false (Some "General Medicine")
     = (Raised OverflowError, init_database).
Proof.
  assert (Hgen : generate_token (Scenario.at_time 0) init_database None
                 = Returned "HOSP-20231225-001") by (vm_compute; reflexivity).
  assert (Hfresh : existsb (token_is "HOSP-20231225-001") (patients init_database)
                   = false) by reflexivity.
  split.
  - exact (proj1 (proj1 (register_patient_accepts_empty_name (Scenario.at_time 0)
                   init_database (Some 41) None false false
                   (Some "General Medicine") "HOSP-20231225-001" Hgen Hfresh)
                   eq_refl)).
  - exact (proj2 (register_patient_accepts_empty_name (Scenario.at_time 0)
                   init_database (Some 9223372036854775808) None false false
                   (Some "General Medicine") "HOSP-20231225-001" Hgen Hfresh)
                 9223372036854775808 eq_refl eq_refl).
Defined.

(** C7 as stated fails: on the fresh database a registration with the
    empty name raises nothing and leaves a new row in [patients]. *)
Lemma empty_name_rejected_counterexample : ~ Spec.empty_name_rejected.
Proof.
  intros H.
  destruct (H (Scenario.at_time 0) init_database None None false false None)
    as [[e He] _].
  vm_compute in He. discriminate.
Qed.

(** ** calculate_wait_time *)

Lemma patients_ahead_in_scope (now : timestamp) (s : db) (priority : Z)
  (dept : option string) :
  patients_ahead now s priority dept
  = count (fun p => in_scope dept p && ahead_clause now priority p) (patients s).
Proof.
  unfold patients_ahead, in_scope. destruct (nonempty dept) as [d|].
  - reflexivity.
  - apply count_ext. intros p _. now rewrite andb_true_r.
Qed.

(** C1, as the code has it.  For every priority that fits a 64-bit
    integer, as the three classes do, [calculate_wait_time] returns
    min(base + departmentBaseline + 15 * countAhead, 240); base is 0 for
    class 1 (Emergency), 20 for class 2 (Regular), 10 for class 3
    (FollowUp); departmentBaseline is the current wait time of the given
    department when a department is given and is in the departments table,
    and 0 otherwise, that is when no department or the empty name is given
    or the given department is not in the table; countAhead counts waiting
    patients only, and when a department is given only those of that
    department; it includes every such patient of the same class
    registered before the current timestamp, and it is exactly their
    number when no patient of another class is waiting there.  A priority
    outside 64 bits raises OverflowError. *)
Theorem calculate_wait_time_department_scoped (c : clock) (s : db)
  (priority : Z) (dept : option string) :
  let now := current_timestamp c in
  let ahead := patients_ahead now s priority dept in
  (Sql.binds priority = true ->
   calculate_wait_time c s priority dept
   = Returned (Z.min (base_time priority + department_adjustment s dept
                      + 15 * ahead) 240))
  /\ (1 <= priority <= 3 -> Sql.binds priority = true)
  /\ (Sql.binds priority = false ->
      calculate_wait_time c s priority dept = Raised OverflowError)
  /\ (base_time 1 = 0 /\ base_time 2 = 20 /\ base_time 3 = 10)
  /\ (forall d w, nonempty dept = Some d -> department_wait s d = Some w ->
        department_adjustment s dept = w)
  /\ (forall d, nonempty dept = Some d -> department_wait s d = None ->
        department_adjustment s dept = 0)
  /\ (nonempty dept = None -> department_adjustment s dept = 0)
  /\ count (fun p => in_scope dept p && same_class_earlier now priority p) (patients s)
     <= ahead <= count (in_scope dept) (patients s)
  /\ ((forall p, In p (patients s) -> in_scope dept p = true ->
         priority_level p = priority) ->
      ahead = count (fun p => in_scope dept p && same_class_earlier now priority p)
                (patients s)).
Proof.
  intros now ahead. subst ahead.
  split; [intros Hb; unfold calculate_wait_time; rewrite Hb; fold now;
          do 2 f_equal; lia|].
  split; [intros Hp; unfold Sql.binds; apply andb_true_intro;
          split; apply Z.leb_le; lia|].
  split; [intros Hb; unfold calculate_wait_time; now rewrite Hb|].
  split; [repeat split|].
  split; [intros d w Hd Hw; unfold department_adjustment; now rewrite Hd, Hw|].
  split; [intros d Hd Hw; unfold department_adjustment; now rewrite Hd, Hw|].
  split; [intros Hd; unfold department_adjustment; now rewrite Hd|].
  rewrite patients_ahead_in_scope. split; [split|].
  - apply count_le. intros p _ H. apply andb_prop in H. destruct H as [Hs Hc].
    rewrite Hs. simpl. unfold ahead_clause. fold (same_class_earlier now priority p).
    rewrite Hc. apply orb_true_r.
  - apply count_le. intros p _ H. apply andb_prop in H. tauto.
  - intros Hsame. apply count_ext. intros p Hin.
    destruct (in_scope dept p) eqn:Hs; [|reflexivity]. simpl.
    unfold ahead_clause. fold (same_class_earlier now priority p).
    assert (Hgt : (priority_level p >? priority) = false).
    { rewrite (Hsame p Hin Hs). rewrite Z.gtb_ltb. apply Z.ltb_irrefl. }
    now rewrite Hgt.
Qed.

Lemma calculate_wait_time_department_scoped_witness :
  calculate_wait_time (Scenario.at_time 60) Scenario.one_in_pediatrics
    2 (Some "Pediatrics") = Returned 65
  /\ calculate_wait_time (Scenario.at_time 60) Scenario.one_in_pediatrics
       2 (Some "Cardiology") = Returned 80
  /\ department_adjustment Scenario.one_in_pediatrics (Some "Radiology") = 0.
Proof.
  split; [|split].
  - rewrite (proj1 (calculate_wait_time_department_scoped (Scenario.at_time 60)
                      Scenario.one_in_pediatrics 2 (Some "Pediatrics")) eq_refl).
    vm_compute. reflexivity.
  - rewrite (proj1 (calculate_wait_time_department_scoped (Scenario.at_time 60)
                      Scenario.one_in_pediatrics 2 (Some "Cardiology")) eq_refl).
    vm_compute. reflexivity.
  - refine (proj1 (proj2 (proj2 (proj2 (proj2 (proj2
              (calculate_wait_time_department_scoped (Scenario.at_time 60)
                 Scenario.one_in_pediatrics 2 (Some "Radiology")))))))
              "Radiology" _ _); reflexivity.
Defined.

(** C1 as stated fails: with one Regular patient waiting in Pediatrics, a
    Regular arrival for Cardiology gets 20 + 60 + 15 * 0 = 80 minutes,
    where the count over all waiting patients would give 95. *)
Lemma wait_time_as_specified_counterexample : ~ Spec.wait_time_as_specified.
Proof.
  intros H.
  specialize (H (Scenario.at_time 60) Scenario.one_in_pediatrics 2
                (Some "Cardiology")).
  vm_compute in H. assert (E : Returned 80 = Returned 95)
    by (apply H; split; discriminate).
  discriminate E.
Qed.

(** The comparison on the class number in [calculate_wait_time] selects
    the less urgent classes: an Emergency arrival with three Regular
    patients waiting is counted three patients behind, 45 minutes, where
    [get_queue_position] would place it first. *)
Example emergency_counted_behind_regular :
  patients_ahead 1703462580 Scenario.three_regular 1 None = 3
  /\ calculate_wait_time (Scenario.at_time 180) Scenario.three_regular 1 None
     = Returned 45
  /\ Spec.count_ahead 1703462580 Scenario.three_regular 1 = 0
  /\ get_queue_position
       (Scenario.register (Scenario.at_time 180) Scenario.three_regular
          "Eve" true false None) "HOSP-20231225-004" = 1.
Proof. vm_compute. repeat split. Qed.

(** ** get_queue_position *)

Lemma before_clause_iff (a b : patient) :
  before_clause (priority_level b) (registration_time b) a = true
  <-> strictly_before a b.
Proof.
  unfold before_clause, strictly_before.
  rewrite orb_true_iff, andb_true_iff, !Z.ltb_lt, Z.eqb_eq. tauto.
Qed.

Lemma queue_le_iff (a b : patient) :
  queue_le a b = true <-> ~ strictly_before b a.
Proof.
  unfold queue_le, strictly_before.
  rewrite orb_true_iff, andb_true_iff, Z.ltb_lt, Z.eqb_eq, Z.leb_le. lia.
Qed.

Lemma strictly_before_trans (a b c : patient) :
  strictly_before a b -> strictly_before b c -> strictly_before a c.
Proof. unfold strictly_before. lia. Qed.

Lemma strictly_before_irrefl (a : patient) : ~ strictly_before a a.
Proof. unfold strictly_before. lia. Qed.

Lemma queue_key_trichotomy (a b : patient) :
  strictly_before a b \/ same_queue_key a b \/ strictly_before b a.
Proof. unfold strictly_before, same_queue_key. lia. Qed.

Lemma before_clause_same_key (a b p : patient) :
  same_queue_key a b ->
  before_clause (priority_level a) (registration_time a) p
  = before_clause (priority_level b) (registration_time b) p.
Proof. intros [Hp Hr]. now rewrite Hp, Hr. Qed.

(** C5, as the code has it.  Among waiting patients [get_queue_position]
    is strictly increasing in the pair (priority class, registration
    time): a patient with a smaller pair has a smaller position.  Two
    waiting patients with the same class and the same registration
    timestamp share one position, so positions are distinct exactly for
    patients that differ in class or in timestamp. *)
Theorem queue_position_strictly_monotone (s : db) (t1 t2 : string)
  (p1 p2 : patient) :
  get_patient s t1 = Some p1 -> status p1 = waiting ->
  get_patient s t2 = Some p2 -> status p2 = waiting ->
  (strictly_before p1 p2 -> get_queue_position s t1 < get_queue_position s t2)
  /\ (same_queue_key p1 p2 -> get_queue_position s t1 = get_queue_position s t2)
  /\ (get_queue_position s t1 = get_queue_position s t2 -> same_queue_key p1 p2).
Proof.
  intros H1 W1 H2 W2.
  assert (Hlt : forall u1 u2 q1 q2,
             get_patient s u1 = Some q1 -> status q1 = waiting ->
             get_patient s u2 = Some q2 ->
             strictly_before q1 q2 ->
             get_queue_position s u1 < get_queue_position s u2).
  { intros u1 u2 q1 q2 G1 Wq G2 Hb. unfold get_queue_position. rewrite G1, G2.
    apply get_patient_some in G1. destruct G1 as [Hin _].
    apply Z.add_lt_mono_r.
    apply count_lt with (w := q1); auto.
    - intros x _ Hx. apply andb_prop in Hx. destruct Hx as [Hw Hx].
      rewrite Hw. simpl. apply before_clause_iff.
      apply before_clause_iff in Hx. eapply strictly_before_trans; eauto.
    - destruct (before_clause (priority_level q1) (registration_time q1) q1) eqn:E.
      + apply before_clause_iff in E. now apply strictly_before_irrefl in E.
      + apply andb_false_r.
    - apply andb_true_intro. split; [now apply is_waiting_iff|].
      now apply before_clause_iff. }
  assert (Heq : same_queue_key p1 p2 ->
                get_queue_position s t1 = get_queue_position s t2).
  { intros Hk. unfold get_queue_position. rewrite H1, H2. f_equal.
    apply count_ext. intros x _. f_equal. now apply before_clause_same_key. }
  split; [intros Hb; eapply Hlt; eauto|]. split; [exact Heq|].
  intros Hpos. destruct (queue_key_trichotomy p1 p2) as [Hb | [Hk | Hb]].
  - pose proof (Hlt t1 t2 p1 p2 H1 W1 H2 Hb). lia.
  - exact Hk.
  - pose proof (Hlt t2 t1 p2 p1 H2 W2 H1 Hb). lia.
Qed.

Lemma queue_position_strictly_monotone_witness :
  get_queue_position Scenario.three_regular "HOSP-20231225-001"
  < get_queue_position Scenario.three_regular "HOSP-20231225-003".
Proof.
  refine (proj1 (queue_position_strictly_monotone Scenario.three_regular
                   "HOSP-20231225-001" "HOSP-20231225-003" _ _ _ _ _ _) _);
    try (vm_compute; reflexivity).
  vm_compute. right. split; reflexivity.
Defined.

(** C5 as stated fails: Ann and Bob, both Regular and registered within
    the same second, are both at position 1. *)
Lemma positions_injective_counterexample : ~ Spec.positions_injective.
Proof.
  intros H.
  refine (H Scenario.same_second "HOSP-20231225-001" "HOSP-20231225-002"
            _ _ _ _ _ _ _ _); try (vm_compute; reflexivity).
  discriminate.
Qed.

(** *** The position and the ordered queue *)

Lemma queue_insert_perm (p : patient) (l : list patient) :
  Permutation (queue_insert p l) (p :: l).
Proof.
  induction l as [|q l IH]; simpl; [apply Permutation_refl|].
  destruct (queue_le p q); [apply Permutation_refl|].
  eapply perm_trans; [apply perm_skip, IH | apply perm_swap].
Qed.

Lemma order_by_queue_perm (l : list patient) : Permutation (order_by_queue l) l.
Proof.
  induction l as [|p l IH]; simpl; [constructor|].
  eapply perm_trans; [apply queue_insert_perm | now apply perm_skip].
Qed.

Lemma queue_le_total (a b : patient) : queue_le a b = false -> queue_le b a = true.
Proof.
  intros H. apply queue_le_iff. intros Hb.
  assert (Hn : queue_le a b <> true) by (rewrite H; discriminate).
  apply Hn. apply queue_le_iff. unfold strictly_before in *. lia.
Qed.

Lemma may_precede_trans (a b c : patient) :
  may_precede a b -> may_precede b c -> may_precede a c.
Proof.
  unfold may_precede. rewrite !queue_le_iff. unfold strictly_before. lia.
Qed.

Lemma queue_insert_sorted (p : patient) (l : list patient) :
  StronglySorted may_precede l -> StronglySorted may_precede (queue_insert p l).
Proof.
  induction 1 as [|q l Hs IH Hall]; simpl.
  - constructor; constructor.
  - destruct (queue_le p q) eqn:E.
    + constructor; [constructor; assumption|].
      constructor; [exact E|].
      eapply Forall_impl; [|exact Hall].
      intros x Hx. eapply may_precede_trans; eauto.
    + constructor; [exact IH|].
      eapply Permutation_Forall; [apply Permutation_sym, queue_insert_perm|].
      constructor; [now apply queue_le_total | exact Hall].
Qed.

Lemma order_by_queue_sorted (l : list patient) :
  StronglySorted may_precede (order_by_queue l).
Proof.
  induction l as [|p l IH]; simpl; [constructor | now apply queue_insert_sorted].
Qed.

Lemma count_perm {A : Type} (f : A -> bool) (l l' : list A) :
  Permutation l l' -> count f l = count f l'.
Proof.
  induction 1 as [| x l l' _ IH | x y l | l l' l'' _ IH1 _ IH2].
  - reflexivity.
  - rewrite !count_cons. lia.
  - rewrite !count_cons. lia.
  - congruence.
Qed.

(** In a sorted queue the rows strictly before [row] form a prefix. *)
Lemma sorted_split (row : patient) (l : list patient) :
  StronglySorted may_precede l ->
  let f := before_clause (priority_level row) (registration_time row) in
  l = (filter f l ++ filter (fun p => negb (f p)) l)%list.
Proof.
  intros Hs f. induction Hs as [|x l Hs IH Hall]; [reflexivity|].
  simpl. destruct (f x) eqn:Hx; simpl.
  - now rewrite <- IH.
  - assert (Hnone : forall y, In y l -> f y = false).
    { intros y Hy. destruct (f y) eqn:Hfy; [|reflexivity].
      rewrite Forall_forall in Hall. specialize (Hall y Hy).
      unfold may_precede in Hall. apply queue_le_iff in Hall.
      apply before_clause_iff in Hfy.
      assert (Hxr : strictly_before x row).
      { unfold strictly_before in *. lia. }
      apply before_clause_iff in Hxr. fold f in Hxr. congruence. }
    assert (E1 : filter f l = []).
    { clear -Hnone. induction l as [|y l IH]; [reflexivity|].
      simpl. rewrite (Hnone y (or_introl eq_refl)). apply IH.
      intros; apply Hnone; simpl; auto. }
    assert (E2 : filter (fun p => negb (f p)) l = l).
    { clear -Hnone. induction l as [|y l IH]; [reflexivity|].
      simpl. rewrite (Hnone y (or_introl eq_refl)). simpl. f_equal. apply IH.
      intros; apply Hnone; simpl; auto. }
    now rewrite E1, E2.
Qed.

Lemma sorted_app_right (l1 l2 : list patient) :
  StronglySorted may_precede (l1 ++ l2) -> StronglySorted may_precede l2.
Proof.
  induction l1 as [|x l1 IH]; simpl; [auto|].
  intros H. apply StronglySorted_inv in H. tauto.
Qed.

Lemma position_in_queue (s : db) (row : patient) :
  In row (patients s) -> status row = waiting ->
  let f := before_clause (priority_level row) (registration_time row) in
  let queue := get_current_queue s None in
  let i := List.length (filter f queue) in
  count (fun p => is_waiting p && f p) (patients s) = Z.of_nat i
  /\ (exists q, nth_error queue i = Some q /\ same_queue_key q row
                /\ In q (patients s) /\ status q = waiting)
  /\ (forall j p, (j < i)%nat -> nth_error queue j = Some p -> strictly_before p row).
Proof.
  intros Hin Hw f queue i.
  assert (Hq : queue = order_by_queue (filter is_waiting (patients s))) by reflexivity.
  assert (Hperm : Permutation queue (filter is_waiting (patients s)))
    by (rewrite Hq; apply order_by_queue_perm).
  assert (Hsorted : StronglySorted may_precede queue)
    by (rewrite Hq; apply order_by_queue_sorted).
  pose proof (sorted_split row queue Hsorted) as Hsplit. cbv zeta in Hsplit.
  fold f in Hsplit. fold i.
  split.
  { rewrite count_filter. rewrite <- (count_perm f _ _ Hperm). reflexivity. }
  assert (Hfrow : f row = false).
  { destruct (f row) eqn:E; [|reflexivity]. apply before_clause_iff in E.
    now apply strictly_before_irrefl in E. }
  assert (HinB : In row (filter (fun p => negb (f p)) queue)).
  { apply filter_In. split.
    - eapply Permutation_in; [apply Permutation_sym, Hperm|].
      apply filter_In. split; [exact Hin | now apply is_waiting_iff].
    - now rewrite Hfrow. }
  assert (HsB : StronglySorted may_precede (filter (fun p => negb (f p)) queue)).
  { apply sorted_app_right with (l1 := filter f queue). now rewrite <- Hsplit. }
  split.
  - remember (filter (fun p => negb (f p)) queue) as rest eqn:EB.
    destruct rest as [|q B]; [destruct HinB|].
    exists q.
    assert (Hqin : In q queue /\ negb (f q) = true).
    { apply (proj1 (filter_In (fun p => negb (f p)) q queue)).
      rewrite <- EB. now left. }
    destruct Hqin as [Hqq Hnf].
    split.
    { unfold i. rewrite Hsplit at 1.
      rewrite nth_error_app2 by apply Nat.le_refl.
      now rewrite Nat.sub_diag. }
    assert (Hqw : In q (filter is_waiting (patients s)))
      by (eapply Permutation_in; eauto).
    apply filter_In in Hqw. destruct Hqw as [Hqp Hqwait].
    split; [|split; [exact Hqp | now apply is_waiting_iff]].
    assert (Hn1 : ~ strictly_before q row).
    { intros Hb. apply before_clause_iff in Hb. fold f in Hb.
      rewrite Hb in Hnf. discriminate. }
    assert (Hn2 : ~ strictly_before row q).
    { apply StronglySorted_inv in HsB. destruct HsB as [_ Hall].
      destruct HinB as [-> | HinB]; [apply strictly_before_irrefl|].
      rewrite Forall_forall in Hall. now apply queue_le_iff, Hall. }
    destruct (queue_key_trichotomy q row) as [? | [? | ?]]; tauto.
  - intros j p Hj Hnth.
    rewrite Hsplit in Hnth. rewrite nth_error_app1 in Hnth by exact Hj.
    apply nth_error_In in Hnth. apply filter_In in Hnth.
    now apply before_clause_iff.
Qed.

(** C4, as the code has it.  [get_queue_position] returns the sentinel -1
    exactly for a token that no row carries.  For every token that
    exists, whatever the patient's status, it returns one plus the number
    of waiting patients strictly before that patient in (priority class,
    registration time) order, which is at least 1.  For a waiting patient
    this is its 1-based rank in the ordered waiting queue: the rows
    before that index are exactly the strictly earlier ones, the row at
    that index has the patient's class and registration time, and is the
    patient itself when no other waiting patient shares both. *)
Theorem get_queue_position_rank (s : db) (t : string) :
  (get_patient s t = None -> get_queue_position s t = -1)
  /\ (forall row, get_patient s t = Some row ->
        1 <= get_queue_position s t
        /\ get_queue_position s t
           = 1 + count (fun p => is_waiting p
                                 && before_clause (priority_level row)
                                      (registration_time row) p) (patients s)
        /\ (status row = waiting ->
            let queue := get_current_queue s None in
            let i := Z.to_nat (get_queue_position s t - 1) in
            (exists q, nth_error queue i = Some q /\ same_queue_key q row)
            /\ (forall j p, (j < i)%nat -> nth_error queue j = Some p ->
                  strictly_before p row)
            /\ ((forall p, In p (patients s) -> status p = waiting ->
                   same_queue_key p row -> p = row) ->
                nth_error queue i = Some row))).
Proof.
  split.
  - intros Hnone. unfold get_queue_position. now rewrite Hnone.
  - intros row Hrow.
    assert (Hpos : get_queue_position s t
                   = 1 + count (fun p => is_waiting p
                                   && before_clause (priority_level row)
                                        (registration_time row) p) (patients s)).
    { unfold get_queue_position. rewrite Hrow. lia. }
    split; [rewrite Hpos; pose proof (count_nonneg
               (fun p => is_waiting p && before_clause (priority_level row)
                           (registration_time row) p) (patients s)); lia|].
    split; [exact Hpos|].
    intros Hw queue i. subst queue.
    apply get_patient_some in Hrow. destruct Hrow as [Hin _].
    destruct (position_in_queue s row Hin Hw) as [Hc [[q [Hq [Hk [Hqp Hqw]]]] Hbefore]].
    assert (Hi : i = List.length
                       (filter (before_clause (priority_level row) (registration_time row))
                          (get_current_queue s None))).
    { subst i. rewrite Hpos, Hc. lia. }
    rewrite Hi. split; [exists q; auto|]. split; [exact Hbefore|].
    intros Huniq. rewrite Hq. f_equal. now apply Huniq.
Qed.

Lemma get_queue_position_rank_witness :
  get_queue_position Scenario.ann_with_smith "HOSP-20231225-404" = -1
  /\ 1 <= get_queue_position Scenario.ann_with_smith "HOSP-20231225-001"
  /\ exists q, nth_error (get_current_queue Scenario.three_regular None)
                 (Z.to_nat (get_queue_position Scenario.three_regular
                              "HOSP-20231225-002" - 1)) = Some q
               /\ (priority_level q = 2 /\ registration_time q = 1703462460).
Proof.
  split.
  { apply (proj1 (get_queue_position_rank Scenario.ann_with_smith
                    "HOSP-20231225-404")).
    vm_compute. reflexivity. }
  split.
  { refine (proj1 (proj2 (get_queue_position_rank Scenario.ann_with_smith
                            "HOSP-20231225-001") _ _)).
    vm_compute. reflexivity. }
  refine (proj1 (proj2 (proj2 (proj2 (get_queue_position_rank
            Scenario.three_regular "HOSP-20231225-002")
            (new_patient (Scenario.at_time 60) "HOSP-20231225-002" "Bob"
               (mkPatientData (Some "Bob") None None None None None (Some 2)
                  None None false None) 35) _)) _)).
  - vm_compute. reflexivity.
  - reflexivity.
Defined.

(** C4 as stated fails: Ann is in consultation, not waiting, and
    [get_queue_position] returns 1 for her token instead of -1. *)
Lemma sentinel_unless_waiting_counterexample : ~ Spec.sentinel_unless_waiting.
Proof.
  intros H.
  assert (E : get_queue_position Scenario.ann_with_smith "HOSP-20231225-001" = -1).
  { eapply H; [vm_compute; reflexivity | vm_compute; discriminate]. }
  vm_compute in E. discriminate E.
Qed.

(** ** update_daily_statistics *)

Lemma update_daily_statistics_rows (locked : bool) (c : clock) (s : db) :
  statistics (snd (update_daily_statistics locked c s)) = statistics s
  \/ (statistics (snd (update_daily_statistics locked c s))
      = (statistics s ++ [compute_statistic c s])%list
      /\ ~ In (today_iso c) (map stat_date (statistics s))).
Proof.
  unfold update_daily_statistics.
  destruct (count (dated (today_iso c)) (statistics s) =? 0) eqn:E; [|now left].
  destruct locked; [now left|]. right. split; [reflexivity|].
  apply Z.eqb_eq in E. rewrite count_zero in E.
  intros Hin. apply in_map_iff in Hin. destruct Hin as [r [Hd Hr]].
  specialize (E r Hr). unfold dated in E. rewrite Hd, String.eqb_refl in E.
  discriminate.
Qed.

(** One call of the engine leaves [statistics] alone or appends one row
    for a date the table does not have yet. *)
Lemma step_statistics (s : db) (call : clock * operation) :
  statistics (step s call) = statistics s
  \/ exists r, statistics (step s call) = (statistics s ++ [r])%list
               /\ ~ In (stat_date r) (map stat_date (statistics s)).
Proof.
  destruct call as [c op]. unfold step. cbn [fst snd].
  destruct op as [d | t dn | t | t reason | | dept w].
  - left. unfold add_patient.
    destruct (generate_token c s (pd_department_code d)); [|reflexivity].
    destruct (calculate_wait_time _ _ _ _); [|reflexivity].
    destruct (insert_binds d); [|reflexivity].
    destruct (insert_allowed s a d); [|reflexivity].
    destruct (pd_full_name d); reflexivity.
  - left. unfold start_consultation.
    destruct (rowcount _ _ >? 0); [|reflexivity].
    destruct (nonempty dn); reflexivity.
  - left. unfold complete_consultation.
    destruct (rowcount _ _ >? 0); [|reflexivity].
    destruct (fst (update_daily_statistics true c s)); [|reflexivity].
    destruct (nonempty _); reflexivity.
  - left. unfold cancel_patient.
    destruct (get_patient s t); [|reflexivity].
    destruct (rowcount _ _ >? 0); reflexivity.
  - destruct (update_daily_statistics_rows false c s) as [E | [E Hnew]].
    + now left.
    + right. exists (compute_statistic c s). split; [exact E | exact Hnew].
  - left. unfold update_department_wait_time.
    destruct (Sql.binds w); reflexivity.
Qed.

Lemma step_one_row_per_date (s : db) (call : clock * operation) :
  one_row_per_date s -> one_row_per_date (step s call).
Proof.
  unfold one_row_per_date. intros Hs.
  destruct (step_statistics s call) as [E | [r [E Hnew]]]; rewrite E; [exact Hs|].
  rewrite map_app. simpl.
  apply NoDup_app_remove_l with (l := []). simpl.
  apply Permutation_NoDup with (l := stat_date r :: map stat_date (statistics s)).
  - apply Permutation_cons_append.
  - now constructor.
Qed.

Lemma run_statistics (calls : list (clock * operation)) (s : db) :
  one_row_per_date s ->
  one_row_per_date (run s calls)
  /\ exists added, statistics (run s calls) = (statistics s ++ added)%list.
Proof.
  revert s. induction calls as [|call calls IH]; intros s Hs.
  - split; [exact Hs|]. exists []. simpl. now rewrite app_nil_r.
  - simpl. destruct (IH (step s call) (step_one_row_per_date s call Hs))
      as [Hfinal [added Hadd]].
    split; [exact Hfinal|].
    destruct (step_statistics s call) as [E | [r [E _]]]; rewrite E in Hadd.
    + now exists added.
    + exists (r :: added). rewrite Hadd, <- app_assoc. reflexivity.
Qed.

Lemma same_date_same_row (l : list statistic) (r r' : statistic) :
  NoDup (map stat_date l) -> In r l -> In r' l ->
  stat_date r' = stat_date r -> r' = r.
Proof.
  induction l as [|x l IH]; simpl; intros Hnd Hr Hr' Hd; [destruct Hr|].
  inversion Hnd as [|? ? Hx Hl]; subst.
  destruct Hr as [-> | Hr], Hr' as [-> | Hr'].
  - reflexivity.
  - destruct Hx. rewrite <- Hd. now apply in_map.
  - destruct Hx. rewrite Hd. now apply in_map.
  - now apply IH.
Qed.

(** C9.  Starting from a table with at most one row per date, after any
    sequence of engine calls (registrations, consultations started and
    completed, cancellations, statistics updates, department updates, at
    any clock readings) the table still has at most one row per date, every
    row that existed is still there in its place, and any row found for
    the date of an existing row is that very row: it was written once and
    is never recomputed or replaced. *)
Theorem statistics_row_written_once (calls : list (clock * operation)) (s : db) :
  one_row_per_date s ->
  one_row_per_date (run s calls)
  /\ (exists added, statistics (run s calls) = (statistics s ++ added)%list)
  /\ (forall r r', In r (statistics s) -> In r' (statistics (run s calls)) ->
        stat_date r' = stat_date r -> r' = r).
Proof.
  intros Hs. destruct (run_statistics calls s Hs) as [Hfinal [added Hadd]].
  split; [exact Hfinal|]. split; [now exists added|].
  intros r r' Hr Hr' Hd.
  apply (same_date_same_row (statistics (run s calls))); auto.
  rewrite Hadd. apply in_or_app. now left.
Qed.

Lemma statistics_row_written_once_witness :
  statistics Scenario.ann_with_smith_cached
  = [mkStatistic "2023-12-25" 0 0 0 0 0]
  /\ one_row_per_date
       (run Scenario.ann_with_smith_cached
          [(Scenario.at_time 1800, CompleteConsultation "HOSP-20231225-001");
           (Scenario.at_time 1900, UpdateDailyStatistics)])
  /\ statistics
       (run Scenario.ann_with_smith_cached
          [(Scenario.at_time 1800, CompleteConsultation "HOSP-20231225-001");
           (Scenario.at_time 1900, UpdateDailyStatistics)])
     = [mkStatistic "2023-12-25" 0 0 0 0 0].
Proof.
  split; [reflexivity|]. split.
  - apply (statistics_row_written_once
             [(Scenario.at_time 1800, CompleteConsultation "HOSP-20231225-001");
              (Scenario.at_time 1900, UpdateDailyStatistics)]
             Scenario.ann_with_smith_cached).
    vm_compute. constructor; [intros []|constructor].
  - vm_compute. reflexivity.
Defined.

(** ** complete_consultation *)

(** When the statistics row of the day is missing, the nested
    [update_daily_statistics] has to INSERT while the caller's
    transaction holds the write lock: the call raises and the UPDATE of
    the patient, the history entry and the release of the doctor are
    rolled back. *)
Lemma complete_consultation_without_statistics_row (c : clock) (s : db)
  (t : string) (p : patient) :
  In p (patients s) -> token_number p = t -> status p = in_consultation ->
  count (dated (today_iso c)) (statistics s) = 0 ->
  complete_consultation c s t = (Raised OperationalError, s).
Proof.
  intros Hin Ht Hst Hnone. unfold complete_consultation.
  assert (Hpos : (rowcount (fun q => token_is t q && is_in_consultation q)
                    (patients s) >? 0) = true).
  { apply Z.gtb_lt. apply count_pos with (w := p); [exact Hin|].
    unfold token_is, is_in_consultation. rewrite Ht, String.eqb_refl, Hst.
    reflexivity. }
  rewrite Hpos. unfold update_daily_statistics. rewrite Hnone. reflexivity.
Qed.

(** When the row of the day exists the nested call only reads, and the
    consultation is completed as intended: the patient is [completed]
    with the end time stamped, and every doctor row with the assigned name
    is available again with no current patient. *)
Lemma complete_consultation_with_statistics_row (c : clock) (s : db)
  (t n : string) (p : patient) :
  get_patient s t = Some p -> status p = in_consultation ->
  doctor_assigned p = Some n -> n <> EmptyString ->
  count (dated (today_iso c)) (statistics s) <> 0 ->
  let r := complete_consultation c s t in
  fst r = Returned true
  /\ get_patient (snd r) t = Some (set_completed (current_timestamp c) p)
  /\ (forall d, In d (doctors (snd r)) -> doctor_name d = n ->
        is_available d = true /\ current_patient_token d = None)
  /\ (forall d, In d (doctors s) -> doctor_name d <> n -> In d (doctors (snd r))).
Proof.
  intros Hget Hst Hdoc Hn Hrow r. subst r. unfold complete_consultation.
  rewrite Hget, Hdoc.
  pose proof (get_patient_some s t p Hget) as [Hin Ht].
  assert (Hc : token_is t p && is_in_consultation p = true).
  { unfold token_is, is_in_consultation. now rewrite Ht, String.eqb_refl, Hst. }
  assert (Hpos : (rowcount (fun q => token_is t q && is_in_consultation q)
                    (patients s) >? 0) = true).
  { apply Z.gtb_lt. eapply count_pos; eauto. }
  rewrite Hpos, (nonempty_some n Hn).
  assert (Hstat : fst (update_daily_statistics true c s) = Returned tt).
  { unfold update_daily_statistics.
    destruct (count (dated (today_iso c)) (statistics s) =? 0) eqn:E; [|reflexivity].
    apply Z.eqb_eq in E. contradiction. }
  rewrite Hstat. db_simpl.
  split; [reflexivity|]. split; [|split].
  - unfold get_patient in *. db_simpl.
    rewrite find_update_where by reflexivity. rewrite Hget. simpl. now rewrite Hc.
  - intros d Hd Hname. unfold update_where in Hd. apply in_map_iff in Hd.
    destruct Hd as [d0 [Hd0 _]]. destruct (named n d0) eqn:E; subst d.
    + simpl. auto.
    + unfold named in E. apply String.eqb_neq in E. contradiction.
  - intros d Hd Hname. unfold update_where. apply in_map_iff. exists d.
    split; [|exact Hd].
    assert (E : named n d = false) by (unfold named; now apply String.eqb_neq).
    now rewrite E.
Qed.

Lemma update_where_consistent (cond : doctor -> bool) (set : doctor -> doctor)
  (l : list doctor) :
  (forall d, doctor_consistent (set d)) ->
  Forall doctor_consistent l -> Forall doctor_consistent (update_where cond set l).
Proof.
  intros Hset Hl. unfold update_where. apply Forall_forall. intros d Hd.
  apply in_map_iff in Hd. destruct Hd as [d0 [<- Hd0]].
  destruct (cond d0); [apply Hset|].
  rewrite Forall_forall in Hl. now apply Hl.
Qed.

(** Every call keeps the doctors table consistent: a doctor with an
    assigned token is unavailable. *)
Lemma step_doctors_consistent (s : db) (call : clock * operation) :
  doctors_consistent s -> doctors_consistent (step s call).
Proof.
  unfold doctors_consistent. intros Hs.
  destruct call as [c op]. unfold step. cbn [fst snd].
  destruct op as [d | t dn | t | t reason | | dept w].
  - unfold add_patient.
    destruct (generate_token c s (pd_department_code d)); [|exact Hs].
    destruct (calculate_wait_time _ _ _ _); [|exact Hs].
    destruct (insert_binds d); [|exact Hs].
    destruct (insert_allowed s a d); [|exact Hs].
    destruct (pd_full_name d); exact Hs.
  - unfold start_consultation.
    destruct (rowcount _ _ >? 0); [|exact Hs].
    destruct (nonempty dn); db_simpl; [|exact Hs].
    apply update_where_consistent; [|exact Hs].
    intros d0 _. reflexivity.
  - unfold complete_consultation.
    destruct (rowcount _ _ >? 0); [|exact Hs].
    destruct (fst (update_daily_statistics true c s)); [|exact Hs].
    destruct (nonempty _); db_simpl; [|exact Hs].
    apply update_where_consistent; [|exact Hs].
    intros d0 Hd0. now destruct Hd0.
  - unfold cancel_patient.
    destruct (get_patient s t); [|exact Hs].
    destruct (rowcount _ _ >? 0); exact Hs.
  - unfold update_daily_statistics.
    destruct (count _ _ =? 0); exact Hs.
  - unfold update_department_wait_time.
    destruct (Sql.binds w); exact Hs.
Qed.

(** C8 on the code.  Ann is registered on the fresh database and called
    in by Dr. Smith: she is in consultation and Dr. Smith is bound to her
    token and unavailable.  [complete_consultation] on her token then
    raises OperationalError instead of returning True, and the database is
    as before: Ann is still in consultation, no end time is stamped, and
    Dr. Smith is still bound and unavailable. *)
Theorem complete_consultation_locked_on_first_completion :
  option_map status (get_patient Scenario.ann_with_smith "HOSP-20231225-001")
  = Some in_consultation
  /\ option_map doctor_assigned
       (get_patient Scenario.ann_with_smith "HOSP-20231225-001")
     = Some (Some "Dr. Smith")
  /\ In (mkDoctor "Dr. Smith" 1 "Emergency Medicine" false (Some "HOSP-20231225-001"))
        (doctors Scenario.ann_with_smith)
  /\ statistics Scenario.ann_with_smith = []
  /\ complete_consultation (Scenario.at_time 1800) Scenario.ann_with_smith
       "HOSP-20231225-001"
     = (Raised OperationalError, Scenario.ann_with_smith).
Proof. vm_compute. repeat split. now left. Qed.

(** ** generate_token *)

(** The sequence starts at 1: with no token under the prefix the result
    is the prefix followed by 001. *)
Lemma generate_token_first (c : clock) (s : db) (code : option string) :
  last_token (token_prefix c code ++ "%") s = None ->
  generate_token c s code = Returned (token_prefix c code ++ "001").
Proof. intros H. unfold generate_token. now rewrite H. Qed.

(** LIKE ignores the case of ASCII letters: with one token under GM-, the
    first token asked for the code gm continues that sequence instead of
    starting at 001. *)
Example generate_token_prefix_case :
  let d := mkPatientData (Some "Ann") None None None None None (Some 2)
             (Some "General Medicine") (Some "GM") false None in
  let s := snd (add_patient (Scenario.at_time 0) init_database d) in
  map token_number (patients s) = ["GM-20231225-001"]
  /\ generate_token (Scenario.at_time 60) s (Some "gm")
     = Returned "gm-20231225-002".
Proof. vm_compute. split; reflexivity. Qed.

(** C3 on the code.  999 patients are registered on one day, a minute
    apart, and hold the tokens HOSP-20231225-001 to HOSP-20231225-999.
    [generate_token] then returns HOSP-20231225-1000 and the patient is
    registered under it.  The next call of [generate_token] returns
    HOSP-20231225-1000 again: the greatest token in text order is still
    the one ending in 999.  The two successive tokens are equal, and the
    registration that follows fails on the UNIQUE constraint. *)
Theorem generate_token_repeats_after_999 :
  let s999 := Scenario.register_many 999 0 init_database in
  let r := register_patient (Scenario.at_time 60000) s999 "Patient"
             None None false false None in
  List.length (patients s999) = 999%nat
  /\ last_token "HOSP-20231225-%" s999 = Some "HOSP-20231225-999"
  /\ generate_token (Scenario.at_time 60000) s999 None
     = Returned "HOSP-20231225-1000"
  /\ fst r = Returned "HOSP-20231225-1000"
  /\ last_token "HOSP-20231225-%" (snd r) = Some "HOSP-20231225-999"
  /\ generate_token (Scenario.at_time 60060) (snd r) None
     = Returned "HOSP-20231225-1000"
  /\ fst (register_patient (Scenario.at_time 60060) (snd r) "Patient"
            None None false false None)
     = Raised IntegrityError.
Proof. vm_compute. repeat split. Qed.

(** * Further properties of the engine *)

(** ** Checking a concrete table row by row *)

Lemma no_row_passes (f : patient -> bool) (l : list patient) :
  forallb (fun p => negb (f p)) l = true ->
  forall p, In p l -> f p = false.
Proof.
  intros H p Hp. apply (proj1 (forallb_forall _ l) H) in Hp.
  now apply negb_true_iff.
Qed.

Lemma priorities_checked_by_test (s : db) :
  forallb (fun p => (1 <=? priority_level p) && (priority_level p <=? 3))
    (patients s) = true ->
  priorities_checked s.
Proof.
  intros H p Hp. apply (proj1 (forallb_forall _ _) H) in Hp.
  apply andb_prop in Hp. rewrite !Z.leb_le in Hp. exact Hp.
Qed.

Lemma is_in_consultation_iff (p : patient) :
  is_in_consultation p = true <-> status p = in_consultation.
Proof.
  unfold is_in_consultation.
  destruct (status_eqb_spec (status p) in_consultation); intuition congruence.
Qed.

Ltac distinct_tokens :=
  unfold tokens_unique; vm_compute;
  repeat (constructor; [simpl; intuition discriminate|]); constructor.

(** ** The life of a row *)

Lemma may_become_refl (a : patient_status) : may_become a a = true.
Proof. now destruct a. Qed.

Lemma may_become_trans (a b c : patient_status) :
  may_become a b = true -> may_become b c = true -> may_become a c = true.
Proof. destruct a, b, c; simpl; congruence. Qed.

Lemma row_persists_refl (p : patient) : row_persists p p.
Proof. unfold row_persists. now rewrite may_become_refl. Qed.

Lemma row_persists_trans (p q r : patient) :
  row_persists p q -> row_persists q r -> row_persists p r.
Proof.
  unfold row_persists. intros [H1 [H2 [H3 [H4 [H5 [H6 H7]]]]]]
    [K1 [K2 [K3 [K4 [K5 [K6 K7]]]]]].
  repeat split; try congruence. eapply may_become_trans; eauto.
Qed.

Lemma update_where_persists (cond : patient -> bool) (set : patient -> patient) :
  (forall p, cond p = true -> row_persists p (set p)) ->
  forall p, row_persists p (if cond p then set p else p).
Proof.
  intros H p. destruct (cond p) eqn:E; [now apply H | apply row_persists_refl].
Qed.

(** How one call rewrites [patients]: every row is kept, possibly with a
    later status, and at most one new waiting row with a fresh token is
    appended. *)
Lemma step_patients (s : db) (call : clock * operation) :
  exists g extra,
    patients (step s call) = (map g (patients s) ++ extra)%list
    /\ (forall p, row_persists p (g p))
    /\ (extra = []
        \/ exists n, extra = [n]
                     /\ existsb (token_is (token_number n)) (patients s) = false
                     /\ status n = waiting
                     /\ 1 <= priority_level n <= 3).
Proof.
  assert (Hsame : exists g extra,
             patients s = (map g (patients s) ++ extra)%list
             /\ (forall p, row_persists p (g p))
             /\ (extra = []
                 \/ exists n, extra = [n]
                     /\ existsb (token_is (token_number n)) (patients s) = false
                     /\ status n = waiting
                     /\ 1 <= priority_level n <= 3)).
  { exists (fun p => p), []. rewrite map_id, app_nil_r.
    split; [reflexivity|]. split; [apply row_persists_refl | now left]. }
  assert (Hupd : forall cond set,
             (forall p, cond p = true -> row_persists p (set p)) ->
             exists g extra,
               update_where cond set (patients s) = (map g (patients s) ++ extra)%list
               /\ (forall p, row_persists p (g p))
               /\ (extra = []
                   \/ exists n, extra = [n]
                       /\ existsb (token_is (token_number n)) (patients s) = false
                       /\ status n = waiting
                       /\ 1 <= priority_level n <= 3)).
  { intros cond set H. exists (fun r => if cond r then set r else r), [].
    rewrite app_nil_r. split; [reflexivity|].
    split; [now apply update_where_persists | now left]. }
  destruct call as [c op]. unfold step. cbn [fst snd].
  destruct op as [d | t dn | t | t reason | | dept w].
  - unfold add_patient.
    destruct (generate_token c s (pd_department_code d)) as [token|]; [|exact Hsame].
    destruct (calculate_wait_time _ _ _ _) as [est|]; [|exact Hsame].
    destruct (insert_binds d); [|exact Hsame].
    destruct (insert_allowed s token d) eqn:Hall; [|exact Hsame].
    destruct (pd_full_name d) as [name|]; [|exact Hsame].
    db_simpl. eexists (fun p => p), [_]. rewrite map_id.
    split; [reflexivity|]. split; [apply row_persists_refl|].
    right. eexists. split; [reflexivity|].
    unfold insert_allowed in Hall.
    repeat (apply andb_prop in Hall; destruct Hall as [Hall ?]).
    cbn [new_patient token_number status priority_level].
    split; [now apply negb_true_iff|]. split; [reflexivity|]. lia.
  - unfold start_consultation.
    destruct (rowcount _ _ >? 0); [|exact Hsame].
    destruct (nonempty dn); db_simpl; apply Hupd;
      intros p Hp; apply andb_prop in Hp; destruct Hp as [_ Hp];
      apply is_waiting_iff in Hp; unfold row_persists; simpl; rewrite Hp;
      repeat split.
  - unfold complete_consultation.
    destruct (rowcount _ _ >? 0); [|exact Hsame].
    destruct (fst (update_daily_statistics true c s)); [|exact Hsame].
    destruct (nonempty _); db_simpl; apply Hupd;
      intros p Hp; apply andb_prop in Hp; destruct Hp as [_ Hp];
      unfold is_in_consultation in Hp;
      destruct (status_eqb_spec (status p) in_consultation) as [E|]; try discriminate;
      unfold row_persists; simpl; rewrite E; repeat split.
  - unfold cancel_patient.
    destruct (get_patient s t) as [row|]; [|exact Hsame].
    destruct (rowcount _ _ >? 0); [|exact Hsame].
    db_simpl. apply Hupd. intros q _. unfold row_persists. simpl.
    repeat split. now destruct (status q).
  - unfold update_daily_statistics.
    destruct (count _ _ =? 0); exact Hsame.
  - unfold update_department_wait_time.
    destruct (Sql.binds w); exact Hsame.
Qed.

Lemma existsb_token (t : string) (l : list patient) :
  existsb (token_is t) l = true <-> In t (map token_number l).
Proof.
  rewrite existsb_exists, in_map_iff. unfold token_is.
  split; intros [p [H1 H2]]; exists p.
  - apply String.eqb_eq in H2. tauto.
  - split; [exact H2 | now apply String.eqb_eq].
Qed.

Lemma map_token_persists (g : patient -> patient) (l : list patient) :
  (forall p, row_persists p (g p)) ->
  map token_number (map g l) = map token_number l.
Proof.
  intros Hg. rewrite map_map. apply map_ext. intros p. apply (Hg p).
Qed.

Lemma find_token_app (t : string) (l1 l2 : list patient) :
  find (token_is t) (l1 ++ l2)
  = match find (token_is t) l1 with
    | Some p => Some p
    | None => find (token_is t) l2
    end.
Proof.
  induction l1 as [|x l1 IH]; simpl; [reflexivity|].
  destruct (token_is t x); [reflexivity | exact IH].
Qed.

Lemma find_token_map (t : string) (g : patient -> patient) (l : list patient) :
  (forall p, row_persists p (g p)) ->
  find (token_is t) (map g l) = option_map g (find (token_is t) l).
Proof.
  intros Hg. induction l as [|x l IH]; simpl; [reflexivity|].
  unfold token_is at 1. rewrite (proj1 (Hg x)). fold (token_is t x).
  destruct (token_is t x); [reflexivity | exact IH].
Qed.

Lemma step_tokens_unique (s : db) (call : clock * operation) :
  tokens_unique s -> tokens_unique (step s call).
Proof.
  unfold tokens_unique. intros Hs.
  destruct (step_patients s call) as [g [extra [E [Hg Hextra]]]].
  rewrite E, map_app, (map_token_persists g _ Hg).
  destruct Hextra as [-> | [n [-> [Hfresh _]]]]; simpl.
  - now rewrite app_nil_r.
  - apply Permutation_NoDup
      with (l := token_number n :: map token_number (patients s)).
    + apply Permutation_cons_append.
    + constructor; [|exact Hs]. intros Hin. apply existsb_token in Hin.
      congruence.
Qed.

Lemma step_priorities_checked (s : db) (call : clock * operation) :
  priorities_checked s -> priorities_checked (step s call).
Proof.
  unfold priorities_checked. intros Hs p Hp.
  destruct (step_patients s call) as [g [extra [E [Hg Hextra]]]].
  rewrite E in Hp. apply in_app_or in Hp. destruct Hp as [Hp | Hp].
  - apply in_map_iff in Hp. destruct Hp as [q [<- Hq]].
    destruct (Hg q) as [_ [_ [Hprio _]]]. rewrite Hprio. now apply Hs.
  - destruct Hextra as [-> | [n [-> [_ [_ Hrange]]]]]; [destruct Hp|].
    destruct Hp as [<- | []]. exact Hrange.
Qed.

Lemma run_keeps (P : db -> Prop) :
  (forall s call, P s -> P (step s call)) ->
  forall calls s, P s -> P (run s calls).
Proof.
  intros Hstep calls. induction calls as [|call calls IH]; intros s Hs; simpl.
  - exact Hs.
  - apply IH, Hstep, Hs.
Qed.

(** The engine keeps the constraints of the [patients] table over any
    sequence of calls: tokens stay pairwise distinct and every priority
    class stays between 1 and 3. *)
Theorem run_keeps_patient_constraints (calls : list (clock * operation)) (s : db) :
  tokens_unique s -> priorities_checked s ->
  tokens_unique (run s calls) /\ priorities_checked (run s calls).
Proof.
  intros Hu Hp. split.
  - apply (run_keeps tokens_unique step_tokens_unique calls s Hu).
  - apply (run_keeps priorities_checked step_priorities_checked calls s Hp).
Qed.

Lemma run_keeps_patient_constraints_witness :
  tokens_unique (run init_database Cases.day_calls)
  /\ priorities_checked (run init_database Cases.day_calls).
Proof.
  apply (run_keeps_patient_constraints Cases.day_calls init_database).
  - constructor.
  - intros p [].
Defined.

Lemma step_row_persists (s : db) (call : clock * operation) (t : string)
  (p : patient) :
  get_patient s t = Some p ->
  exists p', get_patient (step s call) t = Some p' /\ row_persists p p'.
Proof.
  intros Hp. destruct (step_patients s call) as [g [extra [E [Hg _]]]].
  exists (g p). split; [|apply Hg].
  unfold get_patient in *. rewrite E, find_token_app, (find_token_map t g _ Hg), Hp.
  reflexivity.
Qed.

(** No call deletes or renames a patient: over any sequence of calls the
    row found under a token keeps its token, name, priority class,
    department, registration time and estimated wait, and its status only
    moves forward (waiting, in consultation, completed, cancelled): a
    patient who has left the waiting state is never waiting again, and a
    cancelled patient stays cancelled. *)
Theorem run_row_persists (calls : list (clock * operation)) (s : db)
  (t : string) (p : patient) :
  get_patient s t = Some p ->
  exists p', get_patient (run s calls) t = Some p'
             /\ row_persists p p'
             /\ (status p <> waiting -> status p' <> waiting)
             /\ (status p = cancelled -> status p' = cancelled).
Proof.
  revert s p. induction calls as [|call calls IH]; intros s p Hp.
  - exists p. split; [exact Hp|]. split; [apply row_persists_refl|]. tauto.
  - destruct (step_row_persists s call t p Hp) as [q [Hq Hpq]].
    destruct (IH (step s call) q Hq) as [r [Hr [Hqr _]]].
    exists r. split; [exact Hr|].
    assert (Hpr : row_persists p r) by (eapply row_persists_trans; eauto).
    split; [exact Hpr|].
    destruct Hpr as [_ [_ [_ [_ [_ [_ Hst]]]]]].
    split; intros Hs.
    + intros Hw. rewrite Hw in Hst. destruct (status p); simpl in Hst;
        congruence.
    + rewrite Hs in Hst. destruct (status r); simpl in Hst; congruence.
Qed.

Lemma run_row_persists_witness :
  exists p', get_patient
               (run Scenario.ann_with_smith
                  [(Scenario.at_time 900, CancelPatient "HOSP-20231225-001" None)])
               "HOSP-20231225-001" = Some p'
             /\ status p' <> waiting.
Proof.
  assert (H : exists p,
             get_patient Scenario.ann_with_smith "HOSP-20231225-001" = Some p
             /\ status p <> waiting).
  { eexists. split; [vm_compute; reflexivity | discriminate]. }
  destruct H as [p [Hp Hst]].
  destruct (run_row_persists
              [(Scenario.at_time 900, CancelPatient "HOSP-20231225-001" None)]
              Scenario.ann_with_smith "HOSP-20231225-001" p Hp)
    as [p' [Hp' [_ [Hnw _]]]].
  exists p'. split; [exact Hp' | exact (Hnw Hst)].
Defined.

(** ** The history *)

Lemma count_pos_exists {A : Type} (f : A -> bool) (l : list A) :
  0 < count f l -> exists x, In x l /\ f x = true.
Proof.
  induction l as [|x l IH]; [unfold count; simpl; lia|].
  rewrite count_cons. destruct (f x) eqn:E.
  - intros _. exists x. simpl. auto.
  - intros H. destruct (IH H) as [y [Hy Hf]]. exists y. simpl. auto.
Qed.

Lemma update_where_tokens (cond : patient -> bool) (set : patient -> patient)
  (l : list patient) :
  (forall p, token_number (set p) = token_number p) ->
  map token_number (update_where cond set l) = map token_number l.
Proof.
  intros H. unfold update_where. rewrite map_map. apply map_ext.
  intros p. destruct (cond p); [apply H | reflexivity].
Qed.

Lemma updated_token_exists (cond : patient -> bool) (set : patient -> patient)
  (l : list patient) (t : string) :
  (forall p, token_number (set p) = token_number p) ->
  (forall p, cond p = true -> token_is t p = true) ->
  (rowcount cond l >? 0) = true ->
  existsb (token_is t) (update_where cond set l) = true.
Proof.
  intros Hset Hcond Hpos. apply Z.gtb_lt in Hpos.
  destruct (count_pos_exists cond l Hpos) as [x [Hx Hc]].
  apply existsb_token. rewrite (update_where_tokens cond set l Hset).
  apply existsb_token. apply existsb_exists. exists x. auto.
Qed.

(** One call appends to [queue_history] and every entry it appends names
    a patient of the resulting table. *)
Lemma step_history (s : db) (call : clock * operation) :
  exists added,
    queue_history (step s call) = (queue_history s ++ added)%list
    /\ forall h, In h added ->
         existsb (token_is (h_token_number h)) (patients (step s call)) = true.
Proof.
  assert (Hsame : forall s', queue_history s' = queue_history s ->
            exists added,
              queue_history s' = (queue_history s ++ added)%list
              /\ forall h, In h added ->
                   existsb (token_is (h_token_number h)) (patients s') = true).
  { intros s' E. exists []. rewrite app_nil_r. split; [exact E | intros h []]. }
  destruct call as [c op]. unfold step. cbn [fst snd].
  destruct op as [d | t dn | t | t reason | | dept w].
  - unfold add_patient.
    destruct (generate_token c s (pd_department_code d)) as [token|];
      [|now apply Hsame].
    destruct (calculate_wait_time _ _ _ _) as [est|]; [|now apply Hsame].
    destruct (insert_binds d); [|now apply Hsame].
    destruct (insert_allowed s token d); [|now apply Hsame].
    destruct (pd_full_name d) as [name|]; [|now apply Hsame].
    db_simpl. eexists. split; [reflexivity|].
    intros h [<- | []]. cbn [h_token_number]. rewrite existsb_app. simpl.
    unfold token_is at 2. cbn [new_patient token_number].
    rewrite String.eqb_refl. apply orb_true_r.
  - unfold start_consultation.
    destruct (rowcount _ _ >? 0) eqn:Hpos; [|now apply Hsame].
    assert (Hex : existsb (token_is t)
                    (update_where (fun p => token_is t p && is_waiting p)
                       (set_in_consultation (current_timestamp c) dn) (patients s))
                  = true).
    { apply updated_token_exists; auto.
      intros p Hp. now apply andb_prop in Hp. }
    destruct (nonempty dn); db_simpl; (eexists; split; [reflexivity|]);
      intros h [<- | []]; exact Hex.
  - unfold complete_consultation.
    destruct (rowcount _ _ >? 0) eqn:Hpos; [|now apply Hsame].
    destruct (fst (update_daily_statistics true c s)); [|now apply Hsame].
    assert (Hex : existsb (token_is t)
                    (update_where (fun p => token_is t p && is_in_consultation p)
                       (set_completed (current_timestamp c)) (patients s))
                  = true).
    { apply updated_token_exists; auto.
      intros p Hp. now apply andb_prop in Hp. }
    destruct (nonempty _); db_simpl; (eexists; split; [reflexivity|]);
      intros h [<- | []]; exact Hex.
  - unfold cancel_patient.
    destruct (get_patient s t) as [row|]; [|now apply Hsame].
    destruct (rowcount _ _ >? 0) eqn:Hpos; [|now apply Hsame].
    db_simpl. eexists. split; [reflexivity|].
    intros h [<- | []]. cbn [h_token_number].
    apply updated_token_exists; auto.
  - apply Hsame. unfold update_daily_statistics.
    destruct (count _ _ =? 0); reflexivity.
  - unfold update_department_wait_time.
    destruct (Sql.binds w); now apply Hsame.
Qed.

Lemma step_history_refers (s : db) (call : clock * operation) :
  history_refers s -> history_refers (step s call).
Proof.
  unfold history_refers. intros Hs h Hh.
  destruct (step_history s call) as [added [E Hadded]].
  rewrite E in Hh. apply in_app_or in Hh. destruct Hh as [Hh | Hh];
    [|now apply Hadded].
  specialize (Hs h Hh). apply existsb_token in Hs. apply existsb_token.
  destruct (step_patients s call) as [g [extra [Ep [Hg _]]]].
  rewrite Ep, map_app, (map_token_persists g _ Hg). apply in_or_app. now left.
Qed.

(** The history is append-only under the engine: over any sequence of
    calls the entries that existed are kept unchanged as a prefix, and
    every entry names a patient that exists in [patients]. *)
Theorem run_history_append_only (calls : list (clock * operation)) (s : db) :
  history_refers s ->
  history_refers (run s calls)
  /\ exists added, queue_history (run s calls) = (queue_history s ++ added)%list.
Proof.
  intros Hs. split; [apply (run_keeps history_refers step_history_refers calls s Hs)|].
  clear Hs. revert s. induction calls as [|call calls IH]; intros s.
  - exists []. simpl. now rewrite app_nil_r.
  - simpl. destruct (IH (step s call)) as [added Hadd].
    destruct (step_history s call) as [first [E _]].
    exists (first ++ added)%list. rewrite Hadd, E, app_assoc. reflexivity.
Qed.

Lemma run_history_append_only_witness :
  history_refers (run init_database Cases.day_calls)
  /\ exists added,
       queue_history (run init_database Cases.day_calls)
       = (queue_history init_database ++ added)%list.
Proof.
  apply (run_history_append_only Cases.day_calls init_database).
  intros h [].
Defined.

(** ** Registration and lookup *)

Lemma existsb_false_find (t : string) (l : list patient) :
  existsb (token_is t) l = false -> find (token_is t) l = None.
Proof.
  induction l as [|x l IH]; simpl; [reflexivity|].
  destruct (token_is t x); simpl; [discriminate | exact IH].
Qed.

(** What a successful [add_patient] has done. *)
Lemma add_patient_returned (c : clock) (s s' : db) (d : patient_data)
  (token : string) :
  add_patient c s d = (Returned token, s') ->
  exists name est,
    pd_full_name d = Some name
    /\ generate_token c s (pd_department_code d) = Returned token
    /\ calculate_wait_time c s (priority_or_default d) (pd_department d)
       = Returned est
    /\ existsb (token_is token) (patients s) = false
    /\ 1 <= priority_or_default d <= 3
    /\ s' = log (with_patients s
                   (patients s ++ [new_patient c token name d est]))
              (mkHistory token REGISTERED (current_timestamp c) None (Some waiting)
                 None (Some (get_queue_position s token)) "system" None).
Proof.
  unfold add_patient.
  destruct (generate_token c s (pd_department_code d)) as [tok|]; [|discriminate].
  destruct (calculate_wait_time _ _ _ _) as [est|]; [|discriminate].
  destruct (insert_binds d); [|discriminate].
  destruct (insert_allowed s tok d) eqn:Hall; [|discriminate].
  destruct (pd_full_name d) as [name|]; [|discriminate].
  intros H. inversion H; subst. exists name, est.
  unfold insert_allowed in Hall.
  repeat (apply andb_prop in Hall; destruct Hall as [Hall ?]).
  apply negb_true_iff in Hall.
  repeat split; auto; lia.
Qed.

(** A successful [add_patient] can be read back: the returned token was
    not in use, it now finds the new row, which is waiting, registered at
    the current timestamp, and carries the estimate [calculate_wait_time]
    gave on the database before the insertion; the rows under all other
    tokens are found as before. *)
Theorem add_patient_then_lookup (c : clock) (s s' : db) (d : patient_data)
  (token : string) :
  add_patient c s d = (Returned token, s') ->
  get_patient s token = None
  /\ (exists row,
        get_patient_by_token s' token
        = Some (row, priority_text (priority_or_default d))
        /\ token_number row = token
        /\ pd_full_name d = Some (full_name row)
        /\ status row = waiting
        /\ priority_level row = priority_or_default d
        /\ registration_time row = current_timestamp c
        /\ calculate_wait_time c s (priority_or_default d) (pd_department d)
           = Returned (estimated_wait_time row))
  /\ (forall t, t <> token -> get_patient s' t = get_patient s t).
Proof.
  intros H. destruct (add_patient_returned c s s' d token H)
    as [name [est [Hname [_ [Hest [Hfresh [_ ->]]]]]]].
  pose proof (existsb_false_find token _ Hfresh) as Hnone.
  split; [exact Hnone|]. split.
  - eexists. unfold get_patient_by_token, get_patient in *. db_simpl.
    rewrite find_token_app, Hnone. simpl. unfold token_is at 1.
    cbn [new_patient token_number]. rewrite String.eqb_refl.
    split; [reflexivity|]. cbn. rewrite Hname, Hest. repeat split.
  - intros t Ht. unfold get_patient. db_simpl. rewrite find_token_app.
    destruct (find (token_is t) (patients s)); [reflexivity|].
    simpl. unfold token_is. cbn [new_patient token_number].
    assert (E : (token =? t)%string = false) by (apply String.eqb_neq; congruence).
    now rewrite E.
Qed.

Lemma add_patient_then_lookup_witness :
  get_patient init_database "HOSP-20231225-001" = None.
Proof.
  refine (proj1 (add_patient_then_lookup (Scenario.at_time 0) init_database
                   (snd (add_patient (Scenario.at_time 0) init_database
                           (Cases.regular "Ann" None)))
                   (Cases.regular "Ann" None) "HOSP-20231225-001" _)).
  vm_compute. reflexivity.
Defined.

(** ** The head of the queue *)

Lemma find_unique_token (l : list patient) (p : patient) :
  NoDup (map token_number l) -> In p l ->
  find (token_is (token_number p)) l = Some p.
Proof.
  induction l as [|x l IH]; simpl; intros Hnd Hin; [destruct Hin|].
  inversion Hnd as [|? ? Hx Hl]; subst.
  destruct Hin as [-> | Hin].
  - unfold token_is. now rewrite String.eqb_refl.
  - destruct (token_is (token_number p) x) eqn:E.
    + unfold token_is in E. apply String.eqb_eq in E.
      destruct Hx. rewrite E. now apply in_map.
    + now apply IH.
Qed.

Lemma next_patient_is_least (s : db) (p : patient) :
  get_next_patient s = Some p ->
  In p (patients s) /\ status p = waiting
  /\ forall q, In q (patients s) -> status q = waiting -> ~ strictly_before q p.
Proof.
  unfold get_next_patient. intros H.
  pose proof (order_by_queue_perm (filter is_waiting (patients s))) as Hperm.
  pose proof (order_by_queue_sorted (filter is_waiting (patients s))) as Hsorted.
  destruct (order_by_queue (filter is_waiting (patients s))) as [|x rest] eqn:E;
    [discriminate|].
  simpl in H. inversion H; subst x.
  assert (Hp : In p (filter is_waiting (patients s))).
  { eapply Permutation_in; [exact Hperm | now left]. }
  apply filter_In in Hp. destruct Hp as [Hin Hw].
  split; [exact Hin|]. split; [now apply is_waiting_iff|].
  intros q Hq Hqw.
  assert (Hq' : In q (p :: rest)).
  { eapply Permutation_in; [apply Permutation_sym, Hperm|].
    apply filter_In. split; [exact Hq | now apply is_waiting_iff]. }
  apply StronglySorted_inv in Hsorted. destruct Hsorted as [_ Hall].
  destruct Hq' as [<- | Hq']; [apply strictly_before_irrefl|].
  rewrite Forall_forall in Hall. now apply queue_le_iff, Hall.
Qed.

Lemma next_patient_none (s : db) :
  get_next_patient s = None <->
  forall p, In p (patients s) -> status p <> waiting.
Proof.
  unfold get_next_patient.
  pose proof (order_by_queue_perm (filter is_waiting (patients s))) as Hperm.
  split.
  - intros H p Hin Hw.
    destruct (order_by_queue (filter is_waiting (patients s))) eqn:E;
      [|discriminate].
    apply Permutation_nil in Hperm.
    assert (Hp : In p (filter is_waiting (patients s))).
    { apply filter_In. split; [exact Hin | now apply is_waiting_iff]. }
    rewrite Hperm in Hp. destruct Hp.
  - intros Hnone.
    destruct (order_by_queue (filter is_waiting (patients s))) as [|x rest] eqn:E;
      [reflexivity|].
    assert (Hx : In x (filter is_waiting (patients s))).
    { eapply Permutation_in; [exact Hperm | now left]. }
    apply filter_In in Hx. destruct Hx as [Hin Hw].
    apply is_waiting_iff in Hw. now destruct (Hnone x Hin).
Qed.

Lemma position_one (s : db) (t : string) (p : patient) :
  get_patient s t = Some p ->
  (forall q, In q (patients s) -> status q = waiting -> ~ strictly_before q p) ->
  get_queue_position s t = 1.
Proof.
  intros Hp Hleast. unfold get_queue_position. rewrite Hp.
  assert (E : count (fun q => is_waiting q
                       && before_clause (priority_level p) (registration_time p) q)
                (patients s) = 0).
  { apply count_zero. intros q Hq.
    destruct (is_waiting q) eqn:Hw; [|reflexivity]. simpl.
    destruct (before_clause (priority_level p) (registration_time p) q) eqn:Hb;
      [|reflexivity].
    apply before_clause_iff in Hb. apply is_waiting_iff in Hw.
    now destruct (Hleast q Hq Hw). }
  rewrite E. reflexivity.
Qed.

(** [get_next_patient] and [get_queue_position] agree: there is no next
    patient exactly when nobody is waiting, and the patient returned is a
    waiting patient whom no waiting patient precedes in (priority class,
    registration time) order, at position 1 when tokens are distinct. *)
Theorem next_patient_has_position_one (s : db) :
  (get_next_patient s = None <->
   forall p, In p (patients s) -> status p <> waiting)
  /\ forall p, get_next_patient s = Some p ->
       In p (patients s) /\ status p = waiting
       /\ (forall q, In q (patients s) -> status q = waiting ->
             ~ strictly_before q p)
       /\ (tokens_unique s -> get_queue_position s (token_number p) = 1).
Proof.
  split; [apply next_patient_none|].
  intros p Hp. destruct (next_patient_is_least s p Hp) as [Hin [Hw Hleast]].
  repeat split; auto.
  intros Hu. apply position_one with (p := p); [|exact Hleast].
  now apply find_unique_token.
Qed.

Lemma next_patient_has_position_one_witness :
  exists p, get_next_patient Scenario.three_regular = Some p
            /\ get_queue_position Scenario.three_regular (token_number p) = 1.
Proof.
  assert (H : exists p, get_next_patient Scenario.three_regular = Some p).
  { eexists. vm_compute. reflexivity. }
  destruct H as [p Hp]. exists p. split; [exact Hp|].
  apply (proj2 (next_patient_has_position_one Scenario.three_regular) p Hp).
  distinct_tokens.
Defined.

(** An Emergency registration goes to the head of the queue: when
    priorities are within 1..3 and no Emergency patient is waiting, a
    patient registered through [register_emergency_patient] is at
    position 1 and is the patient [get_next_patient] returns, however many
    Regular and FollowUp patients are waiting. *)
Theorem emergency_registration_is_next (c : clock) (s s' : db) (name : string)
  (condition dept : option string) (token : string) :
  priorities_checked s ->
  (forall q, In q (patients s) -> status q = waiting -> priority_level q <> 1) ->
  HospitalQueueSystem.register_emergency_patient c s name condition dept
  = (Returned token, s') ->
  get_queue_position s' token = 1
  /\ exists row, get_next_patient s' = Some row
                 /\ get_patient s' token = Some row
                 /\ priority_level row = 1.
Proof.
  intros Hchk Hnoem H.
  unfold HospitalQueueSystem.register_emergency_patient, register_patient in H.
  destruct (add_patient_returned c s s' _ token H)
    as [nm [est [Hname [_ [_ [Hfresh [_ Hs']]]]]]].
  cbn [pd_full_name] in Hname. inversion Hname; subst nm. clear Hname.
  remember (new_patient c token name _ _) as row eqn:Hrow in Hs'.
  assert (Hprio : priority_level row = 1) by (subst row; reflexivity).
  assert (Hrw : status row = waiting) by (subst row; reflexivity).
  assert (Hpat : patients s' = (patients s ++ [row])%list) by (subst s'; reflexivity).
  assert (Hget : get_patient s' token = Some row).
  { unfold get_patient. rewrite Hpat, find_token_app,
      (existsb_false_find token _ Hfresh).
    simpl. unfold token_is. subst row. cbn [new_patient token_number].
    now rewrite String.eqb_refl. }
  assert (Hleast : forall q, In q (patients s') -> status q = waiting ->
                     ~ strictly_before q row).
  { intros q Hq Hw. rewrite Hpat in Hq. apply in_app_or in Hq.
    destruct Hq as [Hq | [<- | []]]; [|apply strictly_before_irrefl].
    pose proof (Hchk q Hq). pose proof (Hnoem q Hq Hw).
    unfold strictly_before. lia. }
  split; [now apply position_one with (p := row)|].
  exists row. split; [|split; assumption].
  destruct (get_next_patient s') as [p|] eqn:Hnext.
  - destruct (next_patient_is_least s' p Hnext) as [Hin [Hw Hp]].
    rewrite Hpat in Hin. apply in_app_or in Hin.
    destruct Hin as [Hin | [<- | []]]; [|reflexivity].
    exfalso. apply (Hp row); [rewrite Hpat; apply in_or_app; right; now left
                             | exact Hrw |].
    pose proof (Hchk p Hin). pose proof (Hnoem p Hin Hw).
    unfold strictly_before. lia.
  - exfalso. apply (proj1 (next_patient_none s') Hnext row); [|exact Hrw].
    rewrite Hpat. apply in_or_app. right. now left.
Qed.

Lemma emergency_registration_is_next_witness :
  get_queue_position
    (snd (HospitalQueueSystem.register_emergency_patient (Scenario.at_time 180)
            Scenario.three_regular "Eve" None (Some "Emergency")))
    "HOSP-20231225-004" = 1
  /\ exists row,
       get_next_patient
         (snd (HospitalQueueSystem.register_emergency_patient (Scenario.at_time 180)
                 Scenario.three_regular "Eve" None (Some "Emergency"))) = Some row
       /\ get_patient
            (snd (HospitalQueueSystem.register_emergency_patient (Scenario.at_time 180)
                    Scenario.three_regular "Eve" None (Some "Emergency")))
            "HOSP-20231225-004" = Some row
       /\ priority_level row = 1.
Proof.
  apply (emergency_registration_is_next (Scenario.at_time 180)
           Scenario.three_regular _ "Eve" None (Some "Emergency")
           "HOSP-20231225-004").
  - apply priorities_checked_by_test. vm_compute. reflexivity.
  - intros q Hq Hw Hprio.
    assert (H : forallb (fun p => negb (is_waiting p && (priority_level p =? 1)))
                  (patients Scenario.three_regular) = true)
      by (vm_compute; reflexivity).
    pose proof (no_row_passes _ _ H q Hq) as Hf. cbv beta in Hf.
    apply is_waiting_iff in Hw. rewrite Hw, Hprio in Hf. discriminate Hf.
  - vm_compute. reflexivity.
Defined.

(** ** Leaving the queue *)

Lemma update_where_untouched {A : Type} (cond : A -> bool) (set : A -> A)
  (l : list A) :
  (forall x, In x l -> cond x = false) -> update_where cond set l = l.
Proof.
  intros H. unfold update_where. induction l as [|x l IH]; [reflexivity|].
  simpl. rewrite (H x (or_introl eq_refl)). f_equal.
  apply IH. intros; apply H; simpl; auto.
Qed.

(** Taking the one row with token [t] out of the waiting state lowers a
    count over waiting rows by one exactly when that row was counted. *)
Lemma count_after_leaving (f cond : patient -> bool) (set : patient -> patient)
  (l : list patient) (t : string) (p : patient) :
  NoDup (map token_number l) -> In p l -> token_number p = t ->
  cond p = true ->
  (forall r, cond r = true -> token_is t r = true) ->
  (forall r, is_waiting (set r) = false) ->
  count (fun r => is_waiting r && f r) (update_where cond set l)
  = count (fun r => is_waiting r && f r) l
    - (if is_waiting p && f p then 1 else 0).
Proof.
  intros Hnd Hin Ht Hcp Hcond Hset.
  induction l as [|x l IH]; [destruct Hin|].
  simpl in Hnd. inversion Hnd as [|? ? Hx Hl]; subst.
  unfold update_where in *. simpl map. rewrite !count_cons.
  destruct Hin as [-> | Hin].
  - rewrite Hcp, Hset. simpl.
    fold (update_where cond set l). rewrite update_where_untouched.
    + destruct (is_waiting p && f p); lia.
    + intros r Hr. destruct (cond r) eqn:E; [|reflexivity].
      apply Hcond in E. unfold token_is in E. apply String.eqb_eq in E.
      destruct Hx. rewrite <- E. now apply in_map.
  - assert (Hcx : cond x = false).
    { destruct (cond x) eqn:E; [|reflexivity].
      apply Hcond in E. unfold token_is in E. apply String.eqb_eq in E.
      destruct Hx. rewrite E. now apply in_map. }
    rewrite Hcx. rewrite (IH Hl Hin). lia.
Qed.

Lemma position_after_leaving (s : db) (cond : patient -> bool)
  (set : patient -> patient) (t u : string) (p q : patient) :
  tokens_unique s ->
  get_patient s t = Some p -> get_patient s u = Some q -> u <> t ->
  cond p = true ->
  (forall r, cond r = true -> token_is t r = true) ->
  (forall r, is_waiting (set r) = false) ->
  (forall r, token_number (set r) = token_number r) ->
  get_queue_position (with_patients s (update_where cond set (patients s))) u
  = get_queue_position s u
    - (if is_waiting p
          && before_clause (priority_level q) (registration_time q) p
       then 1 else 0).
Proof.
  intros Hu Hp Hq Hne Hcp Hcond Hset Htok.
  destruct (get_patient_some s t p Hp) as [Hpin Hpt].
  destruct (get_patient_some s u q Hq) as [Hqin Hqt].
  assert (Hq' : get_patient (with_patients s (update_where cond set (patients s))) u
                = Some q).
  { unfold get_patient in *. db_simpl.
    rewrite find_update_where by (intros x; unfold token_is; now rewrite Htok).
    rewrite Hq. simpl. destruct (cond q) eqn:E; [|reflexivity].
    apply Hcond in E. unfold token_is in E. apply String.eqb_eq in E.
    congruence. }
  unfold get_queue_position. rewrite Hq, Hq'. db_simpl.
  rewrite (count_after_leaving _ cond set (patients s) t p); auto. lia.
Qed.

(** Calling in a waiting patient moves the others up: with distinct
    tokens, after a successful [start_consultation] on the waiting
    patient [p], the position of every other patient [q] is one less than
    before when [p] was ahead of [q], and unchanged otherwise. *)
Theorem start_consultation_advances_queue (c : clock) (s : db) (t u : string)
  (doctor_name : option string) (p q : patient) :
  tokens_unique s ->
  get_patient s t = Some p -> status p = waiting ->
  get_patient s u = Some q -> u <> t ->
  let r := start_consultation c s t doctor_name in
  fst r = Returned true
  /\ (strictly_before p q ->
      get_queue_position (snd r) u = get_queue_position s u - 1)
  /\ (~ strictly_before p q ->
      get_queue_position (snd r) u = get_queue_position s u).
Proof.
  intros Hu Hp Hw Hq Hne r.
  destruct (get_patient_some s t p Hp) as [Hpin Hpt].
  assert (Hcp : token_is t p && is_waiting p = true).
  { unfold token_is. rewrite Hpt, String.eqb_refl. simpl. now apply is_waiting_iff. }
  assert (Hpos : (rowcount (fun x => token_is t x && is_waiting x) (patients s) >? 0)
                 = true).
  { apply Z.gtb_lt. eapply count_pos; eauto. }
  assert (Hposn : forall s1,
             patients s1 = update_where (fun x => token_is t x && is_waiting x)
                             (set_in_consultation (current_timestamp c) doctor_name)
                             (patients s) ->
             get_queue_position s1 u
             = get_queue_position s u
               - (if is_waiting p
                     && before_clause (priority_level q) (registration_time q) p
                  then 1 else 0)).
  { intros s1 E.
    rewrite <- (position_after_leaving s (fun x => token_is t x && is_waiting x)
                  (set_in_consultation (current_timestamp c) doctor_name)
                  t u p q Hu Hp Hq Hne Hcp); auto.
    - unfold get_queue_position, get_patient. db_simpl. now rewrite E.
    - intros x Hx. now apply andb_prop in Hx. }
  assert (Hsnd : get_queue_position (snd r) u
                 = get_queue_position s u
                   - (if is_waiting p
                         && before_clause (priority_level q) (registration_time q) p
                      then 1 else 0)).
  { subst r. unfold start_consultation. rewrite Hpos.
    destruct (nonempty doctor_name); apply Hposn; reflexivity. }
  assert (Hpw : is_waiting p = true) by now apply is_waiting_iff.
  rewrite Hpw in Hsnd. simpl in Hsnd.
  split; [subst r; unfold start_consultation; now rewrite Hpos|].
  split; intros Hb; rewrite Hsnd.
  - apply before_clause_iff in Hb. now rewrite Hb.
  - destruct (before_clause (priority_level q) (registration_time q) p) eqn:E;
      [|lia].
    apply before_clause_iff in E. contradiction.
Qed.

Lemma start_consultation_advances_queue_witness :
  get_queue_position
    (snd (start_consultation (Scenario.at_time 600) Scenario.three_regular
            "HOSP-20231225-001" None)) "HOSP-20231225-003"
  = get_queue_position Scenario.three_regular "HOSP-20231225-003" - 1.
Proof.
  assert (H : exists p q,
             get_patient Scenario.three_regular "HOSP-20231225-001" = Some p
             /\ get_patient Scenario.three_regular "HOSP-20231225-003" = Some q
             /\ status p = waiting /\ strictly_before p q).
  { eexists. eexists. split; [vm_compute; reflexivity|].
    split; [vm_compute; reflexivity|]. split; [reflexivity|].
    right. split; reflexivity. }
  destruct H as [p [q [Hp [Hq [Hw Hb]]]]].
  assert (Hu : tokens_unique Scenario.three_regular) by distinct_tokens.
  assert (Hne : "HOSP-20231225-003" <> "HOSP-20231225-001") by discriminate.
  exact (proj1 (proj2 (start_consultation_advances_queue (Scenario.at_time 600)
                         Scenario.three_regular "HOSP-20231225-001"
                         "HOSP-20231225-003" None p q Hu Hp Hw Hq Hne)) Hb).
Defined.

(** Cancelling moves the others up in the same way: with distinct tokens,
    after [cancel_patient] on an existing patient [p], the position of
    every other patient [q] is one less than before when [p] was waiting
    ahead of [q], and unchanged otherwise (so cancelling a patient who was
    not waiting moves nobody). *)
Theorem cancel_patient_advances_queue (c : clock) (s : db) (t u : string)
  (reason : option string) (p q : patient) :
  tokens_unique s ->
  get_patient s t = Some p -> get_patient s u = Some q -> u <> t ->
  let r := cancel_patient c s t reason in
  (status p = waiting -> strictly_before p q ->
   get_queue_position (snd r) u = get_queue_position s u - 1)
  /\ (status p <> waiting \/ ~ strictly_before p q ->
      get_queue_position (snd r) u = get_queue_position s u).
Proof.
  intros Hu Hp Hq Hne r.
  destruct (get_patient_some s t p Hp) as [Hpin Hpt].
  assert (Hcp : token_is t p = true)
    by (unfold token_is; now rewrite Hpt, String.eqb_refl).
  assert (Hpos : (rowcount (token_is t) (patients s) >? 0) = true).
  { apply Z.gtb_lt. eapply count_pos; eauto. }
  assert (Hsnd : get_queue_position (snd r) u
                 = get_queue_position s u
                   - (if is_waiting p
                         && before_clause (priority_level q) (registration_time q) p
                      then 1 else 0)).
  { subst r. unfold cancel_patient. rewrite Hp, Hpos. db_simpl.
    rewrite <- (position_after_leaving s (token_is t) set_cancelled t u p q
                  Hu Hp Hq Hne Hcp); auto. }
  split.
  - intros Hw Hb. rewrite Hsnd. apply is_waiting_iff in Hw.
    apply before_clause_iff in Hb. now rewrite Hw, Hb.
  - intros Hor. rewrite Hsnd.
    destruct (is_waiting p) eqn:Hw; [|simpl; lia].
    destruct (before_clause (priority_level q) (registration_time q) p) eqn:E;
      [|simpl; lia].
    apply is_waiting_iff in Hw. apply before_clause_iff in E. tauto.
Qed.

Lemma cancel_patient_advances_queue_witness :
  get_queue_position
    (snd (cancel_patient (Scenario.at_time 600) Scenario.three_regular
            "HOSP-20231225-001" None)) "HOSP-20231225-003"
  = get_queue_position Scenario.three_regular "HOSP-20231225-003" - 1.
Proof.
  assert (H : exists p q,
             get_patient Scenario.three_regular "HOSP-20231225-001" = Some p
             /\ get_patient Scenario.three_regular "HOSP-20231225-003" = Some q
             /\ status p = waiting /\ strictly_before p q).
  { eexists. eexists. split; [vm_compute; reflexivity|].
    split; [vm_compute; reflexivity|]. split; [reflexivity|].
    right. split; reflexivity. }
  destruct H as [p [q [Hp [Hq [Hw Hb]]]]].
  assert (Hu : tokens_unique Scenario.three_regular) by distinct_tokens.
  assert (Hne : "HOSP-20231225-003" <> "HOSP-20231225-001") by discriminate.
  exact (proj1 (cancel_patient_advances_queue (Scenario.at_time 600)
                  Scenario.three_regular "HOSP-20231225-001"
                  "HOSP-20231225-003" None p q Hu Hp Hq Hne) Hw Hb).
Defined.

(** ** The waiting queue as a view *)

Lemma in_scope_filter (s : db) (dept : option string) :
  get_current_queue s dept = order_by_queue (filter (in_scope dept) (patients s)).
Proof.
  unfold get_current_queue, in_scope. destruct (nonempty dept) as [d|].
  - reflexivity.
  - f_equal. apply filter_ext. intros p. now rewrite andb_true_r.
Qed.

Lemma in_current_queue (s : db) (dept : option string) (row : patient) :
  In row (get_current_queue s dept) <->
  In row (patients s) /\ in_scope dept row = true.
Proof.
  rewrite in_scope_filter, <- filter_In. split; intros H.
  - eapply Permutation_in; [apply order_by_queue_perm | exact H].
  - eapply Permutation_in; [apply Permutation_sym, order_by_queue_perm | exact H].
Qed.

(** [get_current_queue] lists exactly the waiting patients (those of the
    given department when one is given), each row once, ordered by
    priority class and then registration time. *)
Theorem get_current_queue_is_sorted_waiting (s : db) (dept : option string) :
  Permutation (get_current_queue s dept) (filter (in_scope dept) (patients s))
  /\ StronglySorted may_precede (get_current_queue s dept)
  /\ (forall row, In row (get_current_queue s dept) <->
                  In row (patients s) /\ in_scope dept row = true).
Proof.
  split; [|split; [|apply in_current_queue]]; rewrite in_scope_filter.
  - apply order_by_queue_perm.
  - apply order_by_queue_sorted.
Qed.

Lemma get_current_queue_is_sorted_waiting_witness :
  StronglySorted may_precede
    (get_current_queue Cases.day (Some "General Medicine")).
Proof.
  exact (proj1 (proj2 (get_current_queue_is_sorted_waiting Cases.day
                         (Some "General Medicine")))).
Defined.

(** After [cancel_patient] the token is in no queue view and cannot be
    the next patient, while every other waiting patient stays listed. *)
Theorem cancel_patient_leaves_queue (c : clock) (s : db) (t : string)
  (reason : option string) (p : patient) :
  get_patient s t = Some p ->
  let s' := snd (cancel_patient c s t reason) in
  (forall dept row, In row (get_current_queue s' dept) -> token_number row <> t)
  /\ (forall row, get_next_patient s' = Some row -> token_number row <> t)
  /\ (forall dept row, In row (get_current_queue s dept) -> token_number row <> t ->
        In row (get_current_queue s' dept)).
Proof.
  intros Hp s'.
  assert (Hpat : patients s' = update_where (token_is t) set_cancelled (patients s)).
  { subst s'. unfold cancel_patient. rewrite Hp.
    destruct (rowcount _ _ >? 0) eqn:E; [reflexivity|].
    destruct (get_patient_some s t p Hp) as [Hin Ht].
    assert (0 < rowcount (token_is t) (patients s)).
    { eapply count_pos; eauto. unfold token_is. now rewrite Ht, String.eqb_refl. }
    apply Z.gtb_lt in H. congruence. }
  assert (Hwait : forall row, In row (patients s') -> is_waiting row = true ->
                    token_number row <> t /\ In row (patients s)).
  { intros row Hin Hw. rewrite Hpat in Hin. unfold update_where in Hin.
    apply in_map_iff in Hin. destruct Hin as [x [Hx Hxin]].
    destruct (token_is t x) eqn:E; subst row.
    - discriminate Hw.
    - split; [|exact Hxin]. unfold token_is in E. now apply String.eqb_neq in E. }
  split; [|split].
  - intros dept row Hin.
    apply in_current_queue in Hin.
    destruct Hin as [Hin Hsc]. unfold in_scope in Hsc. apply andb_prop in Hsc.
    now apply (Hwait row Hin).
  - intros row Hnext. destruct (next_patient_is_least s' row Hnext) as [Hin [Hw _]].
    apply is_waiting_iff in Hw. now apply (Hwait row Hin).
  - intros dept row Hin Hne.
    apply in_current_queue in Hin.
    apply in_current_queue.
    destruct Hin as [Hin Hsc]. split; [|exact Hsc].
    rewrite Hpat. unfold update_where. apply in_map_iff. exists row.
    split; [|exact Hin].
    assert (E : token_is t row = false)
      by (unfold token_is; now apply String.eqb_neq).
    now rewrite E.
Qed.

Lemma cancel_patient_leaves_queue_witness :
  exists row,
    In row (get_current_queue
              (snd (cancel_patient (Scenario.at_time 600) Scenario.three_regular
                      "HOSP-20231225-002" None)) None)
    /\ token_number row = "HOSP-20231225-001".
Proof.
  assert (H : exists p row,
             get_patient Scenario.three_regular "HOSP-20231225-002" = Some p
             /\ In row (get_current_queue Scenario.three_regular None)
             /\ token_number row = "HOSP-20231225-001").
  { eexists. eexists. split; [vm_compute; reflexivity|].
    split; [vm_compute; left; reflexivity | reflexivity]. }
  destruct H as [p [row [Hp [Hin Ht]]]].
  exists row. split; [|exact Ht].
  apply (proj2 (proj2 (cancel_patient_leaves_queue (Scenario.at_time 600)
                         Scenario.three_regular "HOSP-20231225-002" None p Hp))
           None row Hin).
  rewrite Ht. discriminate.
Defined.

(** ** Completing a consultation *)

Lemma complete_consultation_nothing_to_do (c : clock) (s : db) (t : string) :
  (forall p, In p (patients s) -> token_number p = t ->
             status p <> in_consultation) ->
  complete_consultation c s t = (Returned false, s).
Proof.
  intros Hnone. unfold complete_consultation.
  assert (Hcond : forall p, In p (patients s) ->
                   token_is t p && is_in_consultation p = false).
  { intros p Hin. destruct (token_is t p) eqn:Ht; [|reflexivity]. simpl.
    apply String.eqb_eq in Ht. unfold is_in_consultation.
    destruct (status_eqb_spec (status p) in_consultation) as [E|]; [|reflexivity].
    now destruct (Hnone p Hin Ht). }
  unfold rowcount. rewrite (proj2 (count_zero _ _) Hcond). reflexivity.
Qed.

(** When no row carries the token with status [in_consultation] (unknown
    token, or a patient who is waiting, completed or cancelled),
    [complete_consultation] returns False, raises nothing and leaves the
    whole database as it was. *)
Theorem complete_consultation_refused_leaves_store (c : clock) (s : db)
  (t : string) :
  (forall p, In p (patients s) -> token_number p = t ->
             status p <> in_consultation) ->
  complete_consultation c s t = (Returned false, s).
Proof. apply complete_consultation_nothing_to_do. Qed.

Lemma complete_consultation_refused_leaves_store_witness :
  complete_consultation (Scenario.at_time 600) Scenario.three_regular
    "HOSP-20231225-001"
  = (Returned false, Scenario.three_regular).
Proof.
  apply complete_consultation_refused_leaves_store.
  intros p Hp _ Hst.
  assert (H : forallb (fun q => negb (is_in_consultation q))
                (patients Scenario.three_regular) = true)
    by (vm_compute; reflexivity).
  pose proof (no_row_passes _ _ H p Hp) as Hf.
  apply is_in_consultation_iff in Hst. congruence.
Defined.

(** [HospitalQueueSystem.complete_consultation] called without a token
    never completes anything: it picks the next WAITING patient, whom
    [complete_consultation] refuses because she is not in consultation,
    so with distinct tokens the result is False and the database is
    unchanged. *)
Theorem complete_without_token_does_nothing (c : clock) (s : db) :
  tokens_unique s ->
  HospitalQueueSystem.complete_consultation c s None = (false, s).
Proof.
  intros Hu. unfold HospitalQueueSystem.complete_consultation.
  destruct (get_next_patient s) as [next|] eqn:Hnext; [|reflexivity].
  destruct (next_patient_is_least s next Hnext) as [Hin [Hw _]].
  rewrite complete_consultation_nothing_to_do; [reflexivity|].
  intros p Hp Ht Hst.
  pose proof (find_unique_token (patients s) next Hu Hin) as Hf.
  pose proof (find_unique_token (patients s) p Hu Hp) as Hf'.
  rewrite Ht in Hf'. rewrite Hf in Hf'. inversion Hf'; subst. congruence.
Qed.

Lemma complete_without_token_does_nothing_witness :
  HospitalQueueSystem.complete_consultation (Scenario.at_time 600)
    Scenario.three_regular None
  = (false, Scenario.three_regular).
Proof.
  apply complete_without_token_does_nothing. distinct_tokens.
Defined.

(** ** Doctors *)

(** Over any sequence of calls a doctor with an assigned token is
    unavailable, provided that held at the start; it holds in every
    database the engine builds from the fresh one. *)
Theorem run_doctors_consistent (calls : list (clock * operation)) (s : db) :
  doctors_consistent s ->
  doctors_consistent (run s calls)
  /\ doctors_consistent (run init_database calls).
Proof.
  intros Hs. split.
  - apply (run_keeps doctors_consistent step_doctors_consistent calls s Hs).
  - apply (run_keeps doctors_consistent step_doctors_consistent calls).
    unfold doctors_consistent. simpl.
    repeat constructor; intros H; now destruct H.
Qed.

Lemma run_doctors_consistent_witness :
  doctors_consistent (run Scenario.smith_busy_bob_waiting Cases.day_calls)
  /\ doctors_consistent (run init_database Cases.day_calls).
Proof.
  apply (run_doctors_consistent Cases.day_calls Scenario.smith_busy_bob_waiting).
  unfold doctors_consistent. vm_compute.
  repeat constructor; intros H; try reflexivity; now destruct H.
Defined.



(** ** Departments *)

Lemma with_departments_same (s : db) : with_departments s (departments s) = s.
Proof. destruct s; reflexivity. Qed.

(** [update_department_wait_time] with a wait time that fits a 64-bit
    integer returns True exactly when the department exists; when it
    does, the new figure is what [calculate_wait_time] adds for that
    department from then on; the other departments keep theirs, and for an
    unknown name the database is unchanged; patients and doctors are never
    touched.  A wait time outside 64 bits raises OverflowError and writes
    nothing. *)
Theorem update_department_wait_time_read_back (s : db) (dept : string) (w : Z) :
  let r := update_department_wait_time s dept w in
  (Sql.binds w = true ->
   (fst r = Returned true <-> department_wait s dept <> None)
   /\ (fst r = Returned false <-> department_wait s dept = None)
   /\ (department_wait s dept <> None -> department_wait (snd r) dept = Some w)
   /\ (department_wait s dept <> None -> dept <> EmptyString ->
       department_adjustment (snd r) (Some dept) = w)
   /\ (forall d, d <> dept -> department_wait (snd r) d = department_wait s d)
   /\ (department_wait s dept = None -> snd r = s))
  /\ (Sql.binds w = false -> r = (Raised OverflowError, s))
  /\ patients (snd r) = patients s /\ doctors (snd r) = doctors s.
Proof.
  intros r. subst r. unfold update_department_wait_time.
  set (cond := fun r : department_row => (department_name r =? dept)%string).
  destruct (Sql.binds w);
    [|split; [discriminate | split; [reflexivity | split; reflexivity]]].
  cbn [fst snd].
  split; [intros _ | split; [discriminate | split; reflexivity]].
  assert (Hfind : forall d,
             department_wait
               (with_departments s (update_where cond (set_wait_time w) (departments s))) d
             = option_map (fun x => current_wait_time
                                      (if cond x then set_wait_time w x else x))
                 (find (fun r => (department_name r =? d)%string) (departments s))).
  { intros d. unfold department_wait. db_simpl.
    rewrite find_update_where by reflexivity.
    now destruct (find _ (departments s)). }
  assert (Hex : department_wait s dept <> None <->
                exists x, In x (departments s) /\ cond x = true).
  { unfold department_wait. fold cond. split.
    - destruct (find cond (departments s)) as [x|] eqn:E; [|simpl; congruence].
      intros _. exists x. now apply find_some in E.
    - intros [x [Hx Hc]] Hnone.
      destruct (find cond (departments s)) eqn:E; [discriminate|].
      pose proof (find_none _ _ E x Hx). congruence. }
  assert (Hset : department_wait s dept <> None ->
                 department_wait
                   (with_departments s
                      (update_where cond (set_wait_time w) (departments s))) dept
                 = Some w).
  { intros Hsome. rewrite Hfind. unfold department_wait in Hsome. fold cond in Hsome |- *.
    destruct (find cond (departments s)) as [x|] eqn:E; [|simpl in Hsome; congruence].
    simpl. apply find_some in E. destruct E as [_ E]. now rewrite E. }
  assert (Hpos : (rowcount cond (departments s) >? 0) = true
                 <-> department_wait s dept <> None).
  { rewrite Hex. unfold rowcount. rewrite Z.gtb_lt. split.
    - apply count_pos_exists.
    - intros [x [Hx Hc]]. eapply count_pos; eauto. }
  split; [|split; [|split; [exact Hset|split; [|split]]]].
  - rewrite <- Hpos. split; [intros H; now inversion H | now intros ->].
  - destruct (rowcount cond (departments s) >? 0) eqn:E.
    + split; [discriminate|]. intros Hnone. now apply (proj1 Hpos) in Hnone.
    + split; [intros _|reflexivity].
      destruct (department_wait s dept) eqn:Hw; [|reflexivity].
      assert (Hsome : Some z <> None) by discriminate.
      apply (proj2 Hpos) in Hsome. discriminate.
  - intros Hsome Hne. unfold department_adjustment.
    rewrite (nonempty_some dept Hne). now rewrite (Hset Hsome).
  - intros d Hd. rewrite Hfind. unfold department_wait.
    destruct (find (fun r => (department_name r =? d)%string) (departments s))
      as [x|] eqn:E; [|reflexivity].
    simpl. apply find_some in E. destruct E as [_ E]. apply String.eqb_eq in E.
    assert (Hc : cond x = false) by (unfold cond; apply String.eqb_neq; congruence).
    now rewrite Hc.
  - intros Hnone. rewrite update_where_untouched; [apply with_departments_same|].
    intros x Hx. destruct (cond x) eqn:E; [|reflexivity].
    exfalso. apply (proj2 Hex); eauto.
Qed.

Lemma update_department_wait_time_read_back_witness :
  department_wait (snd (update_department_wait_time init_database "Cardiology" 90))
    "Cardiology" = Some 90
  /\ update_department_wait_time init_database "Cardiology" 9223372036854775808
     = (Raised OverflowError, init_database).
Proof.
  assert (H : department_wait init_database "Cardiology" <> None)
    by (vm_compute; discriminate).
  split.
  - exact (proj1 (proj2 (proj2 (proj1 (update_department_wait_time_read_back
                                         init_database "Cardiology" 90) eq_refl))) H).
  - exact (proj1 (proj2 (update_department_wait_time_read_back init_database
                           "Cardiology" 9223372036854775808)) eq_refl).
Defined.

(** ** The waiting summary *)

Lemma class_counts_add_up (l : list patient) :
  (forall p, In p l -> 1 <= priority_level p <= 3) ->
  count (fun p => priority_level p =? 1) l
  + count (fun p => priority_level p =? 2) l
  + count (fun p => priority_level p =? 3) l
  = Z.of_nat (List.length l).
Proof.
  induction l as [|x l IH]; intros H; [reflexivity|].
  rewrite !count_cons. cbn [List.length]. rewrite Nat2Z.inj_succ.
  specialize (IH (fun p Hp => H p (or_intror Hp))).
  pose proof (H x (or_introl eq_refl)).
  destruct (Z.eqb_spec (priority_level x) 1), (Z.eqb_spec (priority_level x) 2),
    (Z.eqb_spec (priority_level x) 3); lia.
Qed.

(** In the summary of [get_average_waiting_count] the three class counts
    add up to the total whenever priorities are within 1..3; the total
    counts only waiting and completed patients; currently_waiting is the
    length of the queue [get_current_queue] returns; and a negative
    number of hours selects nobody. *)
Theorem waiting_summary_consistent (c : clock) (s : db) (hours : Z) :
  priorities_checked s ->
  let r := get_average_waiting_count c s hours in
  summary_emergency_cases r + summary_regular_cases r + summary_follow_up_cases r
  = total_patients_last_24h r
  /\ 0 <= total_patients_last_24h r
     <= count (fun p => status_eqb (status p) waiting
                        || status_eqb (status p) completed) (patients s)
  /\ currently_waiting r = Z.of_nat (List.length (get_current_queue s None))
  /\ (hours < 0 -> total_patients_last_24h r = 0).
Proof.
  intros Hchk r. subst r. unfold get_average_waiting_count.
  cbn [summary_emergency_cases summary_regular_cases summary_follow_up_cases
       total_patients_last_24h currently_waiting].
  split; [|split; [|split]].
  - apply class_counts_add_up. intros p Hp. apply filter_In in Hp.
    apply Hchk. tauto.
  - split; [lia|].
    change (count (in_window (time_ago (current_timestamp c) hours 3600)) (patients s)
            <= count (fun p => status_eqb (status p) waiting
                               || status_eqb (status p) completed) (patients s)).
    apply count_le. intros p _ Hp. unfold in_window in Hp.
    destruct (time_ago _ _ _); [|discriminate]. apply andb_prop in Hp. tauto.
  - unfold count.
    change (get_current_queue s None)
      with (order_by_queue (filter is_waiting (patients s))).
    now rewrite (Permutation_length
                   (order_by_queue_perm (filter is_waiting (patients s)))).
  - intros Hneg. unfold time_ago.
    assert (E : (hours <? 0) = true) by (apply Z.ltb_lt; lia).
    rewrite E.
    assert (Hnil : filter (in_window None) (patients s) = []).
    { induction (patients s) as [|x l IH]; [reflexivity | exact IH]. }
    now rewrite Hnil.
Qed.

Lemma waiting_summary_consistent_witness :
  summary_emergency_cases
    (get_average_waiting_count (Scenario.at_time 3000) Cases.day 24)
  + summary_regular_cases
      (get_average_waiting_count (Scenario.at_time 3000) Cases.day 24)
  + summary_follow_up_cases
      (get_average_waiting_count (Scenario.at_time 3000) Cases.day 24)
  = total_patients_last_24h
      (get_average_waiting_count (Scenario.at_time 3000) Cases.day 24).
Proof.
  assert (H : priorities_checked Cases.day).
  { apply priorities_checked_by_test. vm_compute. reflexivity. }
  exact (proj1 (waiting_summary_consistent (Scenario.at_time 3000) Cases.day 24 H)).
Defined.

(** ** The patient in consultation *)

Lemma started_le_refl (a : patient) : started_le a a = true.
Proof.
  unfold started_le. destruct (consultation_start_time a); [apply Z.leb_refl | reflexivity].
Qed.

Lemma started_le_total (a b : patient) :
  started_le a b = false -> started_le b a = true.
Proof.
  unfold started_le.
  destruct (consultation_start_time a), (consultation_start_time b);
    try reflexivity; try discriminate.
  rewrite Z.leb_gt, Z.leb_le. lia.
Qed.

Lemma started_le_trans (a b c : patient) :
  started_le a b = true -> started_le b c = true -> started_le a c = true.
Proof.
  unfold started_le.
  destruct (consultation_start_time a), (consultation_start_time b),
    (consultation_start_time c); try reflexivity; try discriminate.
  rewrite !Z.leb_le. lia.
Qed.

Lemma earliest_started_least (rows : list patient) (best : patient) :
  In (earliest_started best rows) (best :: rows)
  /\ forall x, In x (best :: rows) ->
               started_le (earliest_started best rows) x = true.
Proof.
  revert best. induction rows as [|p rest IH]; intros best; simpl.
  - split; [now left|]. intros x [<- | []]. apply started_le_refl.
  - destruct (IH (if started_le best p then best else p)) as [Hin Hle].
    split.
    + destruct Hin as [Hin | Hin]; [|now right; right].
      rewrite <- Hin. destruct (started_le best p); [now left | right; now left].
    + assert (Hb : started_le (if started_le best p then best else p) best = true
                   /\ started_le (if started_le best p then best else p) p = true).
      { destruct (started_le best p) eqn:E.
        - split; [apply started_le_refl | exact E].
        - split; [now apply started_le_total | apply started_le_refl]. }
      destruct Hb as [Hb1 Hb2].
      pose proof (Hle _ (or_introl eq_refl)) as Hfirst.
      intros x [<- | [<- | Hx]].
      * eapply started_le_trans; eauto.
      * eapply started_le_trans; eauto.
      * apply Hle. now right.
Qed.

(** [get_current_patient] returns nothing exactly when nobody is in
    consultation; otherwise it reports a patient who is in consultation
    and whose consultation started no later than that of any other, and
    it shows a doctor name only when the assigned name is that of a row
    of [doctors]. *)
Theorem get_current_patient_earliest (s : db) :
  (get_current_patient s = None <->
   forall p, In p (patients s) -> status p <> in_consultation)
  /\ forall tok name dept doc start,
       get_current_patient s = Some (tok, name, dept, doc, start) ->
       exists row,
         In row (patients s) /\ status row = in_consultation
         /\ token_number row = tok /\ full_name row = name
         /\ department row = dept /\ consultation_start_time row = start
         /\ (forall q, In q (patients s) -> status q = in_consultation ->
               started_le row q = true)
         /\ (forall n, doc = Some n <->
               doctor_assigned row = Some n
               /\ exists d, In d (doctors s) /\ doctor_name d = n).
Proof.
  unfold get_current_patient. split.
  - split.
    + intros H p Hin Hst.
      destruct (filter is_in_consultation (patients s)) eqn:E; [|discriminate].
      assert (Hp : In p (filter is_in_consultation (patients s))).
      { apply filter_In. split; [exact Hin | now apply is_in_consultation_iff]. }
      rewrite E in Hp. destruct Hp.
    + intros Hnone.
      destruct (filter is_in_consultation (patients s)) as [|x rest] eqn:E;
        [reflexivity|].
      assert (Hx : In x (filter is_in_consultation (patients s)))
        by (rewrite E; now left).
      apply filter_In in Hx. destruct Hx as [Hin Hst].
      apply is_in_consultation_iff in Hst. now destruct (Hnone x Hin).
  - intros tok name dept doc start H.
    destruct (filter is_in_consultation (patients s)) as [|x rest] eqn:E;
      [discriminate|].
    inversion H; subst; clear H.
    destruct (earliest_started_least rest x) as [Hin Hle].
    exists (earliest_started x rest).
    assert (Hrow : In (earliest_started x rest)
                     (filter is_in_consultation (patients s)))
      by (rewrite E; exact Hin).
    apply filter_In in Hrow. destruct Hrow as [Hrin Hrst].
    split; [exact Hrin|]. split; [now apply is_in_consultation_iff|].
    repeat (split; [reflexivity|]). split.
    + intros q Hq Hqs. apply Hle. rewrite <- E. apply filter_In.
      split; [exact Hq | now apply is_in_consultation_iff].
    + intros n. unfold joined_doctor_name.
      destruct (doctor_assigned (earliest_started x rest)) as [m|].
      * destruct (existsb (named m) (doctors s)) eqn:Hex.
        -- apply existsb_exists in Hex. destruct Hex as [d [Hd Hn]].
           unfold named in Hn. apply String.eqb_eq in Hn.
           split.
           ++ intros Hm. inversion Hm; subst. split; [reflexivity|]. now exists d.
           ++ intros [Hm _]. exact Hm.
        -- split; [discriminate|]. intros [Hm [d [Hd Hn]]]. inversion Hm; subst n.
           assert (existsb (named m) (doctors s) = true).
           { apply existsb_exists. exists d. split; [exact Hd|].
             unfold named. now apply String.eqb_eq. }
           congruence.
      * split; [discriminate | intros [Hm _]; discriminate].
Qed.

Lemma get_current_patient_earliest_witness :
  get_current_patient Scenario.three_regular = None.
Proof.
  apply (proj1 (get_current_patient_earliest Scenario.three_regular)).
  intros p Hp Hst.
  assert (H : forallb (fun q => negb (is_in_consultation q))
                (patients Scenario.three_regular) = true)
    by (vm_compute; reflexivity).
  pose proof (no_row_passes _ _ H p Hp) as Hf.
  apply is_in_consultation_iff in Hst. congruence.
Defined.

(** ** clear_old_records *)

Lemma add_patient_raised (c : clock) (s s' : db) (d : patient_data) (e : exn) :
  add_patient c s d = (Raised e, s') -> s' = s.
Proof.
  unfold add_patient.
  destruct (generate_token c s (pd_department_code d)) as [tok|];
    [|intros H; now inversion H].
  destruct (calculate_wait_time _ _ _ _); [|intros H; now inversion H].
  destruct (insert_binds d); [|intros H; now inversion H].
  destruct (insert_allowed s tok d); [|intros H; now inversion H].
  destruct (pd_full_name d); intros H; now inversion H.
Qed.

Lemma step_tokens_kept (s : db) (call : clock * operation) :
  (forall d, snd call <> AddPatient d) ->
  map token_number (patients (step s call)) = map token_number (patients s).
Proof.
  destruct call as [c op]. unfold step. cbn [fst snd]. intros Hop.
  destruct op as [d | t dn | t | t reason | | dept w].
  - now destruct (Hop d).
  - unfold start_consultation.
    destruct (rowcount _ _ >? 0); [|reflexivity].
    destruct (nonempty dn); db_simpl; now apply update_where_tokens.
  - unfold complete_consultation.
    destruct (rowcount _ _ >? 0); [|reflexivity].
    destruct (fst (update_daily_statistics true c s)); [|reflexivity].
    destruct (nonempty _); db_simpl; now apply update_where_tokens.
  - unfold cancel_patient.
    destruct (get_patient s t) as [row|]; [|reflexivity].
    destruct (rowcount _ _ >? 0); [|reflexivity].
    db_simpl. now apply update_where_tokens.
  - unfold update_daily_statistics.
    destruct (count _ _ =? 0); reflexivity.
  - unfold update_department_wait_time.
    destruct (Sql.binds w); reflexivity.
Qed.

Lemma step_every_patient_logged (s : db) (call : clock * operation) :
  every_patient_logged s -> every_patient_logged (step s call).
Proof.
  intros Hs. destruct call as [c op].
  assert (Hother : (forall d, op <> AddPatient d) ->
                   every_patient_logged (step s (c, op))).
  { intros Hop p Hp.
    assert (Ht : In (token_number p) (map token_number (patients s))).
    { rewrite <- (step_tokens_kept s (c, op) Hop). now apply in_map. }
    apply in_map_iff in Ht. destruct Ht as [q [Hq Hqin]].
    destruct (Hs q Hqin) as [h [Hh Hht]].
    destruct (step_history s (c, op)) as [added [E _]].
    exists h. split; [rewrite E; apply in_or_app; now left | congruence]. }
  destruct op as [d | t dn | t | t reason | | dept w];
    try (apply Hother; intros; discriminate).
  unfold step. cbn [fst snd].
  destruct (add_patient c s d) as [[token|e] s'] eqn:E.
  - destruct (add_patient_returned c s s' d token E)
      as [name [est [_ [_ [_ [_ [_ ->]]]]]]].
    intros p Hp. cbn [snd log with_patients patients queue_history] in Hp |- *.
    apply in_app_or in Hp. destruct Hp as [Hp | [<- | []]].
    + destruct (Hs p Hp) as [h [Hh Hht]]. exists h.
      split; [apply in_or_app; now left | exact Hht].
    + eexists. split; [apply in_or_app; right; now left | reflexivity].
  - cbn [snd]. now rewrite (add_patient_raised c s s' d e E).
Qed.

Lemma filter_complement_length {A : Type} (f : A -> bool) (l : list A) :
  Z.of_nat (List.length (filter (fun x => negb (f x)) l))
  = Z.of_nat (List.length l) - count f l.
Proof.
  induction l as [|x l IH]; [reflexivity|].
  rewrite count_cons. cbn [filter]. destruct (f x); cbn [negb List.length]; lia.
Qed.

(** [clear_old_records] removes nothing else than what it is meant to:
    a patient who is not completed, or was registered within the last
    [days] days, is kept, and so is a history entry not older than that;
    it adds no row; when it returns, the number it returns is the number
    of rows that disappeared from the two tables; departments, doctors and
    statistics are untouched, and when it raises nothing is deleted. *)
Theorem clear_old_records_scope (c : clock) (s : db) (days : Z) :
  let r := clear_old_records c s days in
  (forall p, In p (patients s) ->
     status p <> completed
     \/ current_timestamp c - days * 86400 <= registration_time p
     \/ days < 0 ->
     In p (patients (snd r)))
  /\ (forall h, In h (queue_history s) ->
        current_timestamp c - days * 86400 <= action_time h \/ days < 0 ->
        In h (queue_history (snd r)))
  /\ (forall p, In p (patients (snd r)) -> In p (patients s))
  /\ (forall h, In h (queue_history (snd r)) -> In h (queue_history s))
  /\ (forall n, fst r = Returned n ->
        n = (Z.of_nat (List.length (patients s))
             - Z.of_nat (List.length (patients (snd r))))
            + (Z.of_nat (List.length (queue_history s))
               - Z.of_nat (List.length (queue_history (snd r)))))
  /\ (forall e, fst r = Raised e -> snd r = s)
  /\ departments (snd r) = departments s
  /\ doctors (snd r) = doctors s
  /\ statistics (snd r) = statistics s.
Proof.
  intros r. subst r. unfold clear_old_records.
  set (cut := time_ago (current_timestamp c) days 86400).
  assert (Hcut : forall ts,
             current_timestamp c - days * 86400 <= ts \/ days < 0 ->
             before_cutoff cut ts = false).
  { intros ts H. unfold cut, time_ago, before_cutoff.
    destruct (days <? 0) eqn:E; [reflexivity|].
    destruct (_ <? julian_day_zero); [reflexivity|].
    apply Z.ltb_ge in E. apply Z.ltb_ge. lia. }
  destruct (existsb (orphaned_by_purge cut s) (queue_history s)); cbn [fst snd].
  - repeat split; auto; intros; discriminate.
  - db_simpl. repeat split; auto.
    + intros p Hp H. apply filter_In. split; [exact Hp|].
      unfold purgeable. destruct H as [H | H].
      * destruct (status_eqb_spec (status p) completed); [contradiction|].
        now rewrite andb_false_r.
      * now rewrite (Hcut _ H).
    + intros h Hh H. apply filter_In. split; [exact Hh|]. now rewrite (Hcut _ H).
    + intros p Hp. now apply filter_In in Hp.
    + intros h Hh. now apply filter_In in Hh.
    + intros n Hn. inversion Hn; subst. unfold rowcount.
      rewrite (filter_complement_length (purgeable cut) (patients s)).
      rewrite (filter_complement_length (fun h => before_cutoff cut (action_time h))
                 (queue_history s)). lia.
    + intros e He. discriminate.
Qed.

Lemma clear_old_records_scope_witness :
  departments (snd (clear_old_records Cases.two_days_later
                      Scenario.three_regular 1))
  = departments Scenario.three_regular.
Proof.
  exact (proj1 (proj2 (proj2 (proj2 (proj2 (proj2 (proj2
           (clear_old_records_scope Cases.two_days_later
              Scenario.three_regular 1)))))))).
Defined.

Lemma run_every_patient_logged (calls : list (clock * operation)) :
  every_patient_logged (run init_database calls).
Proof.
  apply (run_keeps every_patient_logged step_every_patient_logged calls).
  intros p [].
Qed.

(** With foreign keys on, [clear_old_records] cannot delete a patient
    who still has a history entry.  When every patient has one, as in
    every database the engine builds from the fresh one, it never removes
    a patient: it raises IntegrityError exactly when some completed
    patient is older than the threshold, and then the old history entries
    stay as well. *)
Theorem clear_old_records_keeps_logged_patients (c : clock) (s : db) (days : Z) :
  every_patient_logged s ->
  let r := clear_old_records c s days in
  patients (snd r) = patients s
  /\ (fst r = Raised IntegrityError <->
      exists p, In p (patients s)
                /\ purgeable (time_ago (current_timestamp c) days 86400) p = true)
  /\ (fst r = Raised IntegrityError -> snd r = s).
Proof.
  intros Hlog r. subst r. unfold clear_old_records.
  set (cut := time_ago (current_timestamp c) days 86400).
  destruct (existsb (orphaned_by_purge cut s) (queue_history s)) eqn:E;
    cbn [fst snd].
  - split; [reflexivity|]. split; [|reflexivity]. split; [|reflexivity].
    intros _. apply existsb_exists in E. destruct E as [h [_ Hh]].
    unfold orphaned_by_purge in Hh. apply existsb_exists in Hh.
    destruct Hh as [p [Hp Hpp]]. apply andb_prop in Hpp. exists p. tauto.
  - assert (Hnone : forall p, In p (patients s) -> purgeable cut p = false).
    { intros p Hp. destruct (purgeable cut p) eqn:Hpur; [|reflexivity].
      destruct (Hlog p Hp) as [h [Hh Hht]].
      assert (Ho : existsb (orphaned_by_purge cut s) (queue_history s) = true).
      { apply existsb_exists. exists h. split; [exact Hh|].
        unfold orphaned_by_purge. apply existsb_exists. exists p.
        split; [exact Hp|]. rewrite Hpur. unfold token_is.
        rewrite Hht. now rewrite String.eqb_refl. }
      congruence. }
    db_simpl. split; [|split].
    + induction (patients s) as [|x l IH]; [reflexivity|].
      simpl. rewrite (Hnone x (or_introl eq_refl)). simpl. f_equal.
      apply IH. intros; apply Hnone; simpl; auto.
    + split; [discriminate|]. intros [p [Hp Hpur]].
      rewrite (Hnone p Hp) in Hpur. discriminate.
    + discriminate.
Qed.

Lemma clear_old_records_keeps_logged_patients_witness :
  patients (snd (clear_old_records Cases.two_days_later Cases.day 1))
  = patients Cases.day
  /\ fst (clear_old_records Cases.two_days_later Cases.day 1)
     = Raised IntegrityError.
Proof.
  pose proof (clear_old_records_keeps_logged_patients Cases.two_days_later
                Cases.day 1 (run_every_patient_logged Cases.day_calls)) as H.
  split; [exact (proj1 H)|]. vm_compute. reflexivity.
Defined.

(** ** The REGISTERED entry *)

(** The history entry written at registration never holds the queue
    position: its position-after is read through a connection that does
    not see the uncommitted row, and is the sentinel -1, while the
    position read once [add_patient] has returned is at least 1. *)
Theorem registered_entry_has_no_position (c : clock) (s s' : db)
  (d : patient_data) (token : string) :
  add_patient c s d = (Returned token, s') ->
  queue_history s'
  = (queue_history s
     ++ [mkHistory token REGISTERED (current_timestamp c) None (Some waiting)
           None (Some (-1)) "system" None])%list
  /\ 1 <= get_queue_position s' token.
Proof.
  intros H. destruct (add_patient_returned c s s' d token H)
    as [name [est [_ [_ [_ [Hfresh [_ ->]]]]]]].
  pose proof (existsb_false_find token _ Hfresh) as Hnone.
  split.
  - db_simpl. unfold get_queue_position, get_patient. now rewrite Hnone.
  - unfold get_queue_position, get_patient. db_simpl.
    rewrite find_token_app, Hnone. simpl. unfold token_is at 1.
    cbn [new_patient token_number]. rewrite String.eqb_refl.
    match goal with |- 1 <= count ?f ?l + 1 => pose proof (count_nonneg f l) end.
    lia.
Qed.

Lemma registered_entry_has_no_position_witness :
  1 <= get_queue_position
         (snd (add_patient (Scenario.at_time 0) init_database
                 (Cases.regular "Ann" None))) "HOSP-20231225-001".
Proof.
  refine (proj2 (registered_entry_has_no_position (Scenario.at_time 0)
                   init_database _ (Cases.regular "Ann" None)
                   "HOSP-20231225-001" _)).
  vm_compute. reflexivity.
Defined.
